(** * flask_social.core: a shallow embedding and its verified properties

    The development follows [src/flask_social/core.py].  Python dictionaries
    are finite maps ([gmap]); dictionaries that the code copies and mutates in
    place live in a heap of dictionary objects addressed by location, so that
    aliasing between the compiled-in defaults, the application's configuration
    and the normalized configuration is visible.  Code that may raise runs in
    a state-and-exception monad; collaborators that are not part of
    [core.py] (the datastore, the helpers of [flask_social.utils], Flask
    itself) are parameters, bundled in type classes. *)

From stdpp Require Import base option list gmap strings fin_maps pretty.
From Stdlib Require Import String Ascii ZArith NArith Lia.

Local Open Scope string_scope.
Local Open Scope list_scope.

(* ===================================================================== *)
(** * Part I: definitions *)
(* ===================================================================== *)

(** ** Exceptions, outcomes and the state-and-exception monad *)

(** The exception classes the code of [core.py] raises itself, lets pass, or
    catches.  A constructor stands for the class and its subclasses. *)
Inductive exn : Type :=
| ConnectionNotFoundError
| NotImplementedError (msg : string)
| UnboundLocalError (var : string)
| KeyError (key : string)
| AttributeError (attr : string)
| TypeError (msg : string)
| ValueError (msg : string).

Inductive outcome (A : Type) : Type :=
| Return (a : A)
| Raise (e : exn).
Arguments Return {A} a.
Arguments Raise {A} e.

(** A computation over a state [S]: it ends by returning or by raising, and
    the state changes made before an exception are kept, as in Python. *)
Definition M (S A : Type) : Type := S -> outcome A * S.

Definition ret {S A} (a : A) : M S A := fun s => (Return a, s).

Definition raise {S A} (e : exn) : M S A := fun s => (Raise e, s).

Definition bind {S A B} (m : M S A) (k : A -> M S B) : M S B :=
  fun s =>
    match m s with
    | (Return a, s') => k a s'
    | (Raise e, s') => (Raise e, s')
    end.

Definition lift {S A} (o : outcome A) : M S A := fun s => (o, s).

Definition gets {S A} (f : S -> A) : M S A := fun s => (Return (f s), s).

Definition modify {S} (f : S -> S) : M S unit := fun s => (Return tt, f s).

Notation "x <- m ;; k" := (bind m (fun x => k))
  (at level 100, m at next level, right associativity,
   format "'[v' x  <-  m  ;;  '/' k ']'").
Notation "m ;;; k" := (bind m (fun _ => k))
  (at level 100, right associativity,
   format "'[v' m  ;;;  '/' k ']'").

(** ** Python values *)

Definition loc := positive.

(** [VRef l] is a reference to the object at location [l]. *)
Inductive pyval : Type :=
| VNone
| VBool (b : bool)
| VInt (n : Z)
| VStr (s : string)
| VRef (l : loc).

#[global] Instance pyval_eq_dec : EqDecision pyval.
Proof. solve_decision. Defined.

(** [v == None] and [v is None] on the values above. *)
Definition is_None (v : pyval) : bool :=
  match v with VNone => true | _ => false end.

(** [str(v)], as used by the [%s] conversions of the log messages; the text
    of an object behind a reference is given by [str_obj]. *)
Definition py_str (str_obj : loc -> string) (v : pyval) : string :=
  match v with
  | VNone => "None"
  | VBool true => "True"
  | VBool false => "False"
  | VInt n => pretty n
  | VStr s => s
  | VRef l => str_obj l
  end.

(** ** Strings: [startswith], [replace], [lower] *)

Definition startswith (s pre : string) : bool := String.prefix pre s.

(** [replace_from old new s skip] scans [s] from left to right.  While
    [skip] is positive the scan is inside an occurrence of [old] that was
    already replaced; otherwise an occurrence of [old] starting here is
    replaced by [new] and the scan resumes behind it, so occurrences do not
    overlap. *)
Fixpoint replace_from (old new s : string) (skip : nat) : string :=
  match s with
  | EmptyString => EmptyString
  | String c s' =>
      match skip with
      | S k => replace_from old new s' k
      | O =>
          if String.prefix old s
          then new +:+ replace_from old new s' (String.length old - 1)
          else String c (replace_from old new s' 0)
      end
  end.

Fixpoint intersperse_after (new s : string) : string :=
  match s with
  | EmptyString => EmptyString
  | String c s' => String c (new +:+ intersperse_after new s')
  end.

(** [s.replace(old, new)]: every non-overlapping occurrence, left to
    right. *)
Definition replace (s old new : string) : string :=
  match old with
  | EmptyString => new +:+ intersperse_after new s
  | _ => replace_from old new s 0
  end.

Definition lower_ascii (c : ascii) : ascii :=
  let n := N_of_ascii c in
  if (65 <=? n)%N && (n <=? 90)%N then ascii_of_N (n + 32) else c.

Fixpoint lower (s : string) : string :=
  match s with
  | EmptyString => EmptyString
  | String c s' => String (lower_ascii c) (lower s')
  end.

(** The text that follows a prefix of length [n]. *)
Fixpoint drop_prefix (n : nat) (s : string) : string :=
  match n, s with
  | O, _ => s
  | S k, EmptyString => EmptyString
  | S k, String _ s' => drop_prefix k s'
  end.

(** Whether [old] occurs in [s]. *)
Fixpoint occurs (old s : string) : bool :=
  match s with
  | EmptyString => false
  | String _ s' => String.prefix old s || occurs old s'
  end.

(** A dictionary with string keys. *)
Abbreviation dict := (gmap string pyval).

(** [k in d] *)
Definition contains (d : dict) (k : string) : bool :=
  match d !! k with Some _ => true | None => false end.

(** ** Provider (lines 22-49) *)

Module Provider.

(** A registry entry: the remote application and the three strategy
    objects, each held by reference. *)
Record t : Type := {
  remote_app : pyval;
  connection_factory : pyval;
  login_handler : pyval;
  connect_handler : pyval
}.

End Provider.

(** ** Connection records *)

Module Connection.

(** The model object the datastore returns; [ConnectionFactory] reads
    exactly these attributes from it. *)
Record t : Type := {
  user_id : pyval;
  provider_id : pyval;
  provider_user_id : pyval;
  access_token : pyval;
  secret : pyval;
  display_name : pyval;
  profile_url : pyval;
  image_url : pyval
}.

(** [getattr(model, key)] *)
Definition getattr (model : t) (key : string) : outcome pyval :=
  if String.eqb key "user_id" then Return (user_id model)
  else if String.eqb key "provider_id" then Return (provider_id model)
  else if String.eqb key "provider_user_id"
    then Return (provider_user_id model)
  else if String.eqb key "access_token" then Return (access_token model)
  else if String.eqb key "secret" then Return (secret model)
  else if String.eqb key "display_name" then Return (display_name model)
  else if String.eqb key "profile_url" then Return (profile_url model)
  else if String.eqb key "image_url" then Return (image_url model)
  else Raise (AttributeError key).

End Connection.

(** ** ConnectionFactory (lines 52-110) *)

(** What a factory reaches through [current_user] and
    [current_app.social.datastore].  The state [S] is whatever these
    collaborators read and write (the session, the database). *)
Class Collaborators (S : Type) : Type := {
  current_user_get_id : M S pyval;
  datastore_get_primary_connection : pyval -> string -> M S Connection.t;
  datastore_get_connection : pyval -> string -> pyval -> M S Connection.t
}.

Module ConnectionFactory.

(** An instance: its provider id and the [_create_api] its class
    provides. *)
Record t (S : Type) : Type := {
  provider_id : string;
  _create_api : Connection.t -> M S pyval
}.
Arguments provider_id {S} _.
Arguments _create_api {S} _ _.

(** An instance of the base class itself: [_create_api] is the one of
    lines 77-78. *)
Definition base {S} (provider_id : string) : t S :=
  {| provider_id := provider_id;
     _create_api := fun _ =>
       raise (NotImplementedError "create_api method not implemented") |}.

(** The tuple of lines 97-99. *)
Definition as_dict_keys : list string :=
  ["user_id"; "provider_id"; "provider_user_id"; "access_token"; "secret";
   "display_name"; "profile_url"; "image_url"].

Fixpoint as_dict_loop (model : Connection.t) (keys : list string)
    (rv : dict) : outcome dict :=
  match keys with
  | [] => Return rv
  | key :: rest =>
      match Connection.getattr model key with
      | Return v => as_dict_loop model rest (<[key := v]> rv)
      | Raise e => Raise e
      end
  end.

(** Lines 95-101. *)
Definition as_dict (model : Connection.t) : outcome dict :=
  as_dict_loop model as_dict_keys ∅.

(** Reading a local variable that may not have been bound. *)
Definition read_local {S A} (name : string) (binding : option A) : M S A :=
  match binding with
  | Some a => ret a
  | None => raise (UnboundLocalError name)
  end.

(** [dict] called with the keyword [api] and the keywords of [rv]. *)
Definition dict_with_api (api : pyval) (rv : dict) : outcome dict :=
  if contains rv "api"
  then Raise (TypeError "got multiple values for keyword argument 'api'")
  else Return (<["api" := api]> rv).

Section Methods.
Context {S : Type} `{Collaborators S}.

Definition _get_primary_connection (self : t S) (user_id : pyval)
  : M S Connection.t :=
  datastore_get_primary_connection user_id (provider_id self).

Definition _get_current_user_primary_connection (self : t S)
  : M S Connection.t :=
  uid <- current_user_get_id ;;
  _get_primary_connection self uid.

Definition _get_specific_connection (self : t S)
    (user_id provider_user_id : pyval) : M S Connection.t :=
  datastore_get_connection user_id (provider_id self) provider_user_id.

(** Lines 87-93: the three [if] statements, one after the other; the
    result is the binding of the local [connection] behind them. *)
Definition resolve (self : t S) (user_id provider_user_id : pyval)
  : M S (option Connection.t) :=
  connection <-
    (if is_None user_id && is_None provider_user_id
     then c <- _get_current_user_primary_connection self ;; ret (Some c)
     else ret None) ;;
  connection <-
    (if negb (is_None user_id) && is_None provider_user_id
     then c <- _get_primary_connection self user_id ;; ret (Some c)
     else ret connection) ;;
  connection <-
    (if negb (is_None user_id) && negb (is_None provider_user_id)
     then c <- _get_specific_connection self user_id provider_user_id ;;
          ret (Some c)
     else ret connection) ;;
  ret connection.

(** Lines 80-104. *)
Definition get_connection (self : t S) (user_id provider_user_id : pyval)
  : M S dict :=
  binding <- resolve self user_id provider_user_id ;;
  connection <- read_local "connection" binding ;;
  api <- _create_api self connection ;;
  rv <- lift (as_dict connection) ;;
  lift (dict_with_api api rv).

(** [self.get_connection] called with the keywords of [kwargs]: they are
    bound to the two parameters, each [None] when not given; another
    keyword is an error. *)
Definition get_connection_kw (self : t S) (kwargs : dict) : M S dict :=
  if decide (delete "user_id" (delete "provider_user_id" kwargs) = ∅)
  then get_connection self
         (default VNone (kwargs !! "user_id"))
         (default VNone (kwargs !! "provider_user_id"))
  else raise (TypeError
         "get_connection() got an unexpected keyword argument").

(** [try: body / except ConnectionNotFoundError: handler] *)
Definition try_except_not_found {A} (body handler : M S A) : M S A :=
  fun s =>
    match body s with
    | (Raise ConnectionNotFoundError, s') => handler s'
    | r => r
    end.

(** Lines 106-110; [None] is Python's [None]. *)
Definition __call__ (self : t S) (kwargs : dict) : M S (option dict) :=
  try_except_not_found
    (rv <- get_connection_kw self kwargs ;; ret (Some rv))
    (ret None).

End Methods.

End ConnectionFactory.

(** ** OAuth handlers (lines 113-179) *)

(** What the handlers do to the world outside [core.py], in order. *)
Inductive event : Type :=
| LoggerDebug (msg : string)
| DoFlash (message category : string)
| Invoke (callee : string) (args : list pyval).

Abbreviation world := (list event).

Definition emit (e : event) : M world unit := modify (fun w => (w ++ [e])%list).

(** Flask, Flask-Security and [flask_social.utils], as far as the handlers
    use them. *)
Class Flask : Type := {
  get_display_name : string -> outcome string;
  login_view : outcome pyval;
  config_value : string -> outcome pyval;
  redirect : pyval -> pyval;
  str_obj : loc -> string
}.

Definition logger_debug (msg : string) : M world unit := emit (LoggerDebug msg).

Definition do_flash (message category : string) : M world unit :=
  emit (DoFlash message category).

(** [self.callback(args)], [callback] being [None] unless one was given. *)
Definition call_callback (callback : option (list pyval -> M world pyval))
    (args : list pyval) : M world pyval :=
  match callback with
  | Some f => emit (Invoke "callback" args) ;;; f args
  | None => raise (TypeError "'NoneType' object is not callable")
  end.

Module LoginHandler.

Record t : Type := {
  provider_id : string;
  callback : option (list pyval -> M world pyval);
  get_provider_user_id : pyval -> M world pyval
}.

(** An instance of the class itself (lines 130-134). *)
Definition base (provider_id : string)
    (callback : option (list pyval -> M world pyval)) : t :=
  {| provider_id := provider_id;
     callback := callback;
     get_provider_user_id := fun _ =>
       raise (NotImplementedError "get_provider_user_id") |}.

Section Call.
Context `{Flask}.

(** Lines 136-150. *)
Definition __call__ (self : t) (response : pyval) : M world pyval :=
  display_name <- lift (get_display_name (provider_id self)) ;;
  logger_debug ("Received login response from " +:+ display_name +:+ ": "
                +:+ py_str str_obj response) ;;;
  if is_None response then
    do_flash ("Access was denied to your " +:+ display_name +:+ " account")
             "error" ;;;
    view <- lift login_view ;;
    ret (redirect view)
  else
    emit (Invoke "get_provider_user_id" [response]) ;;;
    uid <- get_provider_user_id self response ;;
    call_callback (callback self) [VStr (provider_id self); uid; response].

End Call.

End LoginHandler.

Module ConnectHandler.

Record t : Type := {
  provider_id : string;
  callback : option (list pyval -> M world pyval);
  get_connection_values : pyval -> M world pyval
}.

(** An instance of the class itself (lines 159-165). *)
Definition base (provider_id : string)
    (callback : option (list pyval -> M world pyval)) : t :=
  {| provider_id := provider_id;
     callback := callback;
     get_connection_values := fun _ =>
       raise (NotImplementedError "get_connection_values") |}.

Section Call.
Context `{Flask}.

(** Lines 167-179. *)
Definition __call__ (self : t) (response user_id : pyval)
  : M world pyval :=
  display_name <- lift (get_display_name (provider_id self)) ;;
  logger_debug ("Received connect response from " +:+ display_name +:+ ". "
                +:+ py_str str_obj response) ;;;
  if is_None response then
    do_flash ("Access was denied by " +:+ display_name) "error" ;;;
    target <- lift (config_value "CONNECT_DENY_REDIRECT") ;;
    ret (redirect target)
  else
    emit (Invoke "get_connection_values" [response]) ;;;
    cv <- get_connection_values self response ;;
    call_callback (callback self) [cv; user_id].

End Call.

End ConnectHandler.

(** ** Dictionary objects on the heap *)

(** The application: [app.config] and the dictionary objects reachable from
    it and from the compiled-in provider defaults.  [app.config] is an object
    of its own (Flask's [Config]); the dictionaries it refers to are on the
    heap. *)
Record app_state : Type := {
  config : dict;
  heap : gmap loc dict
}.

Definition set_config (f : dict -> dict) (st : app_state) : app_state :=
  {| config := f (config st); heap := heap st |}.

Definition set_heap (f : gmap loc dict -> gmap loc dict) (st : app_state)
  : app_state :=
  {| config := config st; heap := f (heap st) |}.

(** [d.setdefault(k, v)], for its effect on [d]. *)
Definition setdefault (k : string) (v : pyval) (d : dict) : dict :=
  match d !! k with Some _ => d | None => <[k := v]> d end.

(** [v.copy()]: a new dictionary object with the same items (a shallow
    copy).  Only dictionaries have the method among the values modelled. *)
Definition dict_copy (v : pyval) : M app_state pyval :=
  fun st =>
    match v with
    | VRef l =>
        match heap st !! l with
        | Some d =>
            let l' := fresh (dom (heap st)) in
            (Return (VRef l'), set_heap (insert l' d) st)
        | None => (Raise (AttributeError "copy"), st)
        end
    | _ => (Raise (AttributeError "copy"), st)
    end.

(** [v[k]] for a string key [k]. *)
Definition getitem (v : pyval) (k : string) : M app_state pyval :=
  fun st =>
    match v with
    | VRef l =>
        match heap st !! l with
        | Some d =>
            match d !! k with
            | Some x => (Return x, st)
            | None => (Raise (KeyError k), st)
            end
        | None => (Raise (TypeError "object is not subscriptable"), st)
        end
    | VStr _ => (Raise (TypeError "string indices must be integers"), st)
    | _ => (Raise (TypeError "object is not subscriptable"), st)
    end.

(** [target[k] = v], in place. *)
Definition setitem (target : pyval) (k : string) (v : pyval)
  : M app_state unit :=
  fun st =>
    match target with
    | VRef l =>
        match heap st !! l with
        | Some d => (Return tt, set_heap (insert l (<[k := v]> d)) st)
        | None =>
            (Raise (TypeError "object does not support item assignment"), st)
        end
    | _ => (Raise (TypeError "object does not support item assignment"), st)
    end.

(** [target.update(src)], in place: the items of [src] are written over those
    of [target].  A non-dictionary argument is iterated as a sequence of
    pairs: the empty string has no elements, any other string has elements of
    length one, and [None], booleans and integers are not iterable. *)
Definition dict_update (target src : pyval) : M app_state unit :=
  fun st =>
    match target with
    | VRef l =>
        match heap st !! l with
        | Some d =>
            match src with
            | VRef ls =>
                match heap st !! ls with
                | Some ds => (Return tt, set_heap (insert l (ds ∪ d)) st)
                | None => (Raise (TypeError "object is not iterable"), st)
                end
            | VStr EmptyString => (Return tt, st)
            | VStr _ =>
                (Raise (ValueError
                   "dictionary update sequence element #0 has length 1; 2 is required"),
                 st)
            | _ => (Raise (TypeError "object is not iterable"), st)
            end
        | None => (Raise (AttributeError "update"), st)
        end
    | _ => (Raise (AttributeError "update"), st)
    end.

(** [app.config[key]], [app.config.get(key)] and [app.config[key] = v]. *)
Definition config_getitem (key : string) : M app_state pyval :=
  fun st =>
    match config st !! key with
    | Some v => (Return v, st)
    | None => (Raise (KeyError key), st)
    end.

Definition config_get (key : string) : M app_state pyval :=
  gets (fun st => default VNone (config st !! key)).

Definition config_setitem (key : string) (v : pyval) : M app_state unit :=
  modify (set_config (insert key v)).

(** ** Invariants of computations on the application state *)

Section Invariants.
(** [h0] is the heap at some earlier point and [P] a property of
    [app.config]. *)
Variable h0 : gmap loc dict.
Variable P : dict -> Prop.

(** Every dictionary of [h0] is still there with the items it had, and [P]
    holds. *)
Definition kept (st : app_state) : Prop := h0 ⊆ heap st /\ P (config st).

(** [m] keeps the invariant, whatever its outcome, and what it returns
    satisfies [Q]. *)
Definition triple {A} (m : M app_state A) (Q : A -> Prop) : Prop :=
  forall st, kept st ->
    kept (m st).2 /\ forall a, (m st).1 = Return a -> Q a.

(** A value that does not refer to a dictionary of [h0]. *)
Definition outside (v : pyval) : Prop :=
  match v with VRef l => h0 !! l = None | _ => True end.

End Invariants.

(** ** Social: configuration normalization (lines 11-19 and 197-226) *)

(** The helpers of [flask_social.utils] that [Social.init_app] calls are not
    part of [core.py]; they are parameters.  [get_class_from_string] resolves
    a dotted path to the object it names, here the compiled-in default
    configuration of a built-in provider. *)
Class ConfigUtils : Type := {
  get_default_provider_names : list string;
  get_class_from_string : string -> outcome pyval
}.

Module Social.

Definition default_config : dict :=
  <["SOCIAL_URL_PREFIX" := VNone]>
  (<["SOCIAL_APP_URL" := VStr "http://127.0.0.1:5000"]>
  (<["SOCIAL_CONNECT_ALLOW_REDIRECT" := VStr "/profile"]>
  (<["SOCIAL_CONNECT_DENY_REDIRECT" := VStr "/profile"]>
  (<["SOCIAL_FLASH_MESSAGES" := VBool true]>
  (<["SOCIAL_POST_OAUTH_CONNECT_SESSION_KEY" := VStr "post_oauth_connect_url"]>
  (<["SOCIAL_POST_OAUTH_LOGIN_SESSION_KEY" := VStr "post_oauth_login_url"]>
   ∅)))))).

(** Lines 197-198: [for key, value in default_config.items():
    app.config.setdefault(key, value)]. *)
Definition seed_defaults : M app_state unit :=
  modify (set_config (fun c =>
    foldl (fun acc kv => setdefault kv.1 kv.2 acc) c
          (map_to_list default_config))).

(** Line 207: [key.replace('SOCIAL_', '').lower()]. *)
Definition provider_id_of_key (key : string) : string :=
  lower (replace key "SOCIAL_" "").

(** Line 215: ['flask_social.providers.%s::default_config' % provider_id]. *)
Definition default_config_path (provider_id : string) : string :=
  "flask_social.providers." +:+ provider_id +:+ "::default_config".

Section Normalization.
Context `{ConfigUtils}.

(** Lines 215-226: the normalization of a built-in provider's
    configuration; the result is the reference held by [d_config]. *)
Definition merge_with_defaults (key provider_id : string)
  : M app_state pyval :=
  let co := default_config_path provider_id in
  dflt <- lift (get_class_from_string co) ;;
  d_config <- dict_copy dflt ;;
  d_oauth <- getitem d_config "oauth" ;;
  d_oauth_config <- dict_copy d_oauth ;;
  app_cfg <- config_getitem key ;;
  dict_update d_config app_cfg ;;;
  app_cfg' <- config_getitem key ;;
  app_oauth <- getitem app_cfg' "oauth" ;;
  dict_update d_oauth_config app_oauth ;;;
  setitem d_config "oauth" d_oauth_config ;;;
  config_setitem key d_config ;;;
  ret d_config.

(** Lines 206-226: the body of the loop over the configuration keys;
    [provider_configs] is the list built so far. *)
Definition scan_key (key : string) (provider_configs : list pyval)
  : M app_state (list pyval) :=
  if startswith key "SOCIAL_" && negb (contains default_config key) then
    let provider_id := provider_id_of_key key in
    if negb (bool_decide (provider_id ∈ get_default_provider_names)) then
      v <- config_get key ;;
      ret (provider_configs ++ [v])%list
    else
      d_config <- merge_with_defaults key provider_id ;;
      ret (provider_configs ++ [d_config])%list
  else ret provider_configs.

Fixpoint scan_keys (keys : list string) (provider_configs : list pyval)
  : M app_state (list pyval) :=
  match keys with
  | [] => ret provider_configs
  | key :: rest =>
      pcs <- scan_key key provider_configs ;;
      scan_keys rest pcs
  end.

(** Lines 197-226.  [app.config.keys()] is the list of the keys at the
    time the loop starts; the order in which a dictionary lists its keys
    is not specified, the map's own enumeration stands for it. *)
Definition normalize_config : M app_state (list pyval) :=
  seed_defaults ;;;
  keys <- gets (fun st => (map_to_list (config st)).*1) ;;
  scan_keys keys [].

End Normalization.

(** *** What the loop reads and what it leaves behind *)

Section Vocabulary.
Context `{ConfigUtils}.

(** A key the loop takes for the configuration of a provider. *)
Definition provider_key (key : string) : Prop :=
  startswith key "SOCIAL_" = true /\ contains default_config key = false.

(** A provider key whose provider id is one of the built-in providers, and
    one whose provider id is not. *)
Definition builtin_key (key : string) : Prop :=
  provider_key key /\ provider_id_of_key key ∈ get_default_provider_names.

Definition custom_key (key : string) : Prop :=
  provider_key key /\ provider_id_of_key key ∉ get_default_provider_names.

(** The four dictionaries [merge_with_defaults] reads for [key]: the
    compiled-in default configuration [dd] and its 'oauth' dictionary [od],
    the application's configuration [ad] and its 'oauth' dictionary
    [aod]. *)
Definition mergeable (st : app_state) (key : string) (dd od ad aod : dict)
  : Prop :=
  exists ld lo la lao,
    get_class_from_string (default_config_path (provider_id_of_key key))
      = Return (VRef ld)
    /\ heap st !! ld = Some dd
    /\ dd !! "oauth" = Some (VRef lo)
    /\ heap st !! lo = Some od
    /\ config st !! key = Some (VRef la)
    /\ heap st !! la = Some ad
    /\ ad !! "oauth" = Some (VRef lao)
    /\ heap st !! lao = Some aod.

(** [app.config[key]] is a dictionary with the items of [ad] over those of
    [dd], except that its 'oauth' item is a dictionary with the items of
    [aod] over those of [od]; it is one of the configurations collected in
    [pcs].  The union of two maps prefers the left one. *)
Definition merged (st : app_state) (key : string) (pcs : list pyval)
    (dd od ad aod : dict) : Prop :=
  exists ln lno,
    config st !! key = Some (VRef ln)
    /\ VRef ln ∈ pcs
    /\ heap st !! ln = Some (<["oauth" := VRef lno]> (ad ∪ dd))
    /\ heap st !! lno = Some (aod ∪ od).

End Vocabulary.

(** *** The registry and attribute lookup (lines 184-186, 246-250) *)

(** A [Social] object once [init_app] has run: its instance attributes. *)
Record t : Type := {
  providers : gmap string Provider.t;
  datastore : pyval;
  oauth : pyval
}.

(** Lines 246-247. *)
Definition register_provider (name : string) (provider : Provider.t)
    (self : t) : t :=
  {| providers := <[name := provider]> (providers self);
     datastore := datastore self;
     oauth := oauth self |}.

(** Lines 249-250: [self.providers.get(name, None)]; [None] is Python's
    [None]. *)
Definition __getattr__ (self : t) (name : string) : option Provider.t :=
  providers self !! name.

(** What [social.<name>] can evaluate to. *)
Inductive attribute : Type :=
| AttrNone
| AttrValue (v : pyval)
| AttrRegistry (m : gmap string Provider.t)
| AttrMethod (name : string)
| AttrProvider (p : Provider.t).

Definition of_pyval (v : pyval) : attribute :=
  if is_None v then AttrNone else AttrValue v.

Definition of_provider (o : option Provider.t) : attribute :=
  match o with Some p => AttrProvider p | None => AttrNone end.

(** The instance attributes, assigned at lines 185, 195 and 228. *)
Definition instance_attribute (self : t) (name : string)
  : option attribute :=
  if String.eqb name "providers" then Some (AttrRegistry (providers self))
  else if String.eqb name "datastore" then Some (of_pyval (datastore self))
  else if String.eqb name "oauth" then Some (of_pyval (oauth self))
  else None.

(** The names the class body binds. *)
Definition methods : list string :=
  ["__init__"; "init_app"; "register_provider"; "__getattr__"].

(** The attributes found through the class: its methods and whatever the
    base class [object] provides ([inherited]). *)
Definition class_attribute (inherited : string -> bool) (name : string)
  : option attribute :=
  if bool_decide (name ∈ methods) || inherited name
  then Some (AttrMethod name)
  else None.

(** [social.<name>]: Python looks the name up in the instance and in its
    class, and calls [__getattr__] only when that lookup finds nothing. *)
Definition getattr (inherited : string -> bool) (self : t) (name : string)
  : attribute :=
  match instance_attribute self name with
  | Some a => a
  | None =>
      match class_attribute inherited name with
      | Some a => a
      | None => of_provider (__getattr__ self name)
      end
  end.

End Social.

(** ** Concrete collaborators, to run the model on *)

Module Sample.

(** A datastore with one connection, that of local user [1] at the
    provider's user ["tw-9"]; the state counts the queries made. *)
Definition stored : Connection.t :=
  {| Connection.user_id := VInt 1;
     Connection.provider_id := VStr "twitter";
     Connection.provider_user_id := VStr "tw-9";
     Connection.access_token := VStr "token";
     Connection.secret := VStr "s3cret";
     Connection.display_name := VStr "@someone";
     Connection.profile_url := VStr "http://twitter.com/someone";
     Connection.image_url := VNone |}.

Definition find_primary (user_id : pyval) (provider_id : string)
  : M nat Connection.t :=
  fun queries =>
    if decide (user_id = VInt 1 ∧ provider_id = "twitter")
    then (Return stored, S queries)
    else (Raise ConnectionNotFoundError, S queries).

Definition find_specific (user_id : pyval) (provider_id : string)
    (provider_user_id : pyval) : M nat Connection.t :=
  fun queries =>
    if decide (user_id = VInt 1 ∧ provider_id = "twitter"
               ∧ provider_user_id = VStr "tw-9")
    then (Return stored, S queries)
    else (Raise ConnectionNotFoundError, S queries).

#[global] Instance collaborators : Collaborators nat :=
  {| current_user_get_id := ret (VInt 1);
     datastore_get_primary_connection := find_primary;
     datastore_get_connection := find_specific |}.

(** A factory of a subclass whose [_create_api] returns the API object
    at location 7. *)
Definition twitter_factory : ConnectionFactory.t nat :=
  {| ConnectionFactory.provider_id := "twitter";
     ConnectionFactory._create_api := fun _ => ret (VRef 7%positive) |}.

(** Flask and the helpers for an application whose login view is
    ["/login"] and that knows the provider ["twitter"]. *)
#[global] Instance flask : Flask :=
  {| get_display_name := fun provider_id =>
       if String.eqb provider_id "twitter" then Return "Twitter"
       else Raise (KeyError (provider_id +:+ "_display_name"));
     login_view := Return (VStr "/login");
     config_value := fun key =>
       if String.eqb key "CONNECT_DENY_REDIRECT"
       then Return (VStr "/profile")
       else Raise (KeyError key);
     redirect := fun location =>
       VStr ("302 FOUND " +:+ py_str (fun _ => "<object>") location);
     str_obj := fun _ => "{'uid': '123'}" |}.

(** A callback that reports what it was called with by the number of
    its arguments, and leaves a trace of its own. *)
Definition reporting_callback (args : list pyval) : M world pyval :=
  emit (DoFlash "callback ran" "info") ;;;
  ret (VInt (Z.of_nat (List.length args))).

Definition twitter_login : LoginHandler.t :=
  {| LoginHandler.provider_id := "twitter";
     LoginHandler.callback := Some reporting_callback;
     LoginHandler.get_provider_user_id := fun _ => ret (VStr "tw-9") |}.

(** A connect handler whose connection values are the object at
    location 5. *)
Definition twitter_connect : ConnectHandler.t :=
  {| ConnectHandler.provider_id := "twitter";
     ConnectHandler.callback := Some reporting_callback;
     ConnectHandler.get_connection_values := fun _ =>
       ret (VRef 5%positive) |}.

(** The names every object answers to through the base class. *)
Definition object_attributes (name : string) : bool :=
  bool_decide (name ∈
    ["__class__"; "__delattr__"; "__dict__"; "__doc__"; "__format__";
     "__getattribute__"; "__hash__"; "__module__"; "__new__";
     "__reduce__"; "__reduce_ex__"; "__repr__"; "__setattr__";
     "__sizeof__"; "__str__"; "__subclasshook__"; "__weakref__"]).

Definition twitter_provider : Provider.t :=
  {| Provider.remote_app := VRef 20%positive;
     Provider.connection_factory := VRef 21%positive;
     Provider.login_handler := VRef 22%positive;
     Provider.connect_handler := VRef 23%positive |}.

(** A [Social] object with one registered provider. *)
Definition social : Social.t :=
  Social.register_provider "twitter" twitter_provider
    {| Social.providers := ∅;
       Social.datastore := VRef 30%positive;
       Social.oauth := VRef 31%positive |}.

(** The scenario of the specification: the built-in provider twitter, whose
    compiled-in default configuration is the dictionary at location 1 with
    its 'oauth' dictionary at location 2. *)
#[global] Instance config_utils : ConfigUtils :=
  {| get_default_provider_names := ["twitter"];
     get_class_from_string := fun path =>
       if String.eqb path "flask_social.providers.twitter::default_config"
       then Return (VRef 1%positive)
       else Raise (AttributeError path) |}.

Definition twitter_defaults : dict := {["oauth" := VRef 2%positive]}.

Definition twitter_default_oauth : dict :=
  <["request_token_url" := VStr "default_url"]>
    {["access_token_url" := VStr "default_access"]}.

Definition app_twitter : dict :=
  <["consumer_key" := VStr "X"]> {["oauth" := VRef 4%positive]}.

Definition app_twitter_oauth : dict :=
  {["request_token_url" := VStr "custom"]}.

Definition app_github : dict :=
  <["id" := VStr "github"]> {["oauth" := VRef 6%positive]}.

(** An application that configures twitter, a provider of its own under
    'SOCIAL_GITHUB', and a key that is no provider's. *)
Definition scenario : app_state :=
  {| config :=
       <["SOCIAL_TWITTER" := VRef 3%positive]>
         (<["SOCIAL_GITHUB" := VRef 5%positive]>
            {["SECRET_KEY" := VStr "not a provider"]});
     heap :=
       <[1%positive := twitter_defaults]>
         (<[2%positive := twitter_default_oauth]>
            (<[3%positive := app_twitter]>
               (<[4%positive := app_twitter_oauth]>
                  (<[5%positive := app_github]>
                     {[6%positive := ∅]})))) |}.

(** The same application, had it configured twitter without an 'oauth'
    item. *)
Definition scenario_without_oauth : app_state :=
  {| config := {["SOCIAL_TWITTER" := VRef 3%positive]};
     heap :=
       <[1%positive := twitter_defaults]>
         (<[2%positive := twitter_default_oauth]>
            {[3%positive := {["consumer_key" := VStr "X"]}]}) |}.

End Sample.

(** ** More of the module: calls, registration, failure *)

(** [m] leaves [app.config] as it is, whatever its outcome. *)
Definition keeps_config {A} (m : M app_state A) : Prop :=
  forall st, config (m st).2 = config st.

(** When [m] raises, [app.config] is as it was. *)
Definition raise_keeps_config {A} (m : M app_state A) : Prop :=
  forall st e st', m st = (Raise e, st') -> config st' = config st.

(** ** Calls with positional arguments *)

Module Calls.
Section Calls.
Context {S : Type} `{Collaborators S}.

(** Lines 103-104: what [get_connection] builds from the connection it
    resolved. *)
Definition build (self : ConnectionFactory.t S) (c : Connection.t)
  : M S dict :=
  api <- ConnectionFactory._create_api self c ;;
  rv <- lift (ConnectionFactory.as_dict c) ;;
  lift (ConnectionFactory.dict_with_api api rv).

(** [self.get_connection] called with the positional arguments [args] and
    the keywords [kwargs], for the signature of line 80.  More positional
    arguments than parameters are refused first, then a keyword that names
    no parameter; positional arguments fill [user_id] and [provider_user_id]
    in this order, keywords the rest, and each parameter gets one value at
    most. *)
Definition get_connection (self : ConnectionFactory.t S)
    (args : list pyval) (kwargs : dict) : M S dict :=
  if decide (2 < List.length args)%nat then
    raise (TypeError "get_connection() takes at most 3 arguments")
  else if decide (delete "user_id" (delete "provider_user_id" kwargs) = ∅)
  then
    match args with
    | [] =>
        ConnectionFactory.get_connection self
          (default VNone (kwargs !! "user_id"))
          (default VNone (kwargs !! "provider_user_id"))
    | [user_id] =>
        if contains kwargs "user_id"
        then raise (TypeError
               "get_connection() got multiple values for keyword argument 'user_id'")
        else ConnectionFactory.get_connection self user_id
               (default VNone (kwargs !! "provider_user_id"))
    | user_id :: provider_user_id :: _ =>
        if contains kwargs "user_id"
        then raise (TypeError
               "get_connection() got multiple values for keyword argument 'user_id'")
        else if contains kwargs "provider_user_id"
        then raise (TypeError
               "get_connection() got multiple values for keyword argument 'provider_user_id'")
        else ConnectionFactory.get_connection self user_id provider_user_id
    end
  else raise (TypeError
         "get_connection() got an unexpected keyword argument").

(** The factory itself called with [args] and [kwargs], for the signature of
    line 106, which has no positional parameter besides [self]. *)
Definition call (self : ConnectionFactory.t S)
    (args : list pyval) (kwargs : dict) : M S (option dict) :=
  match args with
  | [] => ConnectionFactory.__call__ self kwargs
  | _ => raise (TypeError "__call__() takes exactly 1 argument")
  end.

(** Lines 30-31, [Provider.get_connection]; [connection_factory] is the
    object [self.connection_factory] refers to. *)
Definition provider_get_connection (connection_factory : ConnectionFactory.t S)
    (args : list pyval) (kwargs : dict) : M S (option dict) :=
  call connection_factory args kwargs.

End Calls.
End Calls.

(** A name that [social.<name>] resolves without [__getattr__]. *)
Definition shadowed (inherited : string -> bool) (name : string) : Prop :=
  name ∈ ["providers"; "datastore"; "oauth"] \/ name ∈ Social.methods
  \/ inherited name = true.

(** Registering the providers of a list, in order. *)
Definition register_all (pps : list (string * Provider.t)) (self : Social.t)
  : Social.t :=
  foldl (fun s pp => Social.register_provider pp.1 pp.2 s) self pps.

(** *** The registration of the configured providers *)

(** [views.configure_provider] with the application, the blueprint and the
    OAuth registry it is called with, and the name of a remote
    application. *)
Class Views : Type := {
  configure_provider : pyval -> outcome (string * Provider.t);
  remote_app_name : pyval -> string
}.

Module Registration.
Section Registration.
Context `{Views}.

(** Lines 48-49, [Provider.__str__]. *)
Definition provider_str (p : Provider.t) : string :=
  "<Provider name=" +:+ remote_app_name (Provider.remote_app p) +:+ ">".

(** Lines 237-240: the loop over the provider configurations; the state is
    the [Social] object and the log. *)
Fixpoint register_configured (provider_configs : list pyval)
  : M (Social.t * world) unit :=
  match provider_configs with
  | [] => ret tt
  | pc :: rest =>
      pp <- lift (configure_provider pc) ;;
      modify (fun s => (Social.register_provider pp.1 pp.2 s.1, s.2)) ;;;
      modify (fun s =>
        (s.1, s.2 ++ [LoggerDebug ("Registered social provider: "
                                   +:+ provider_str pp.2)])) ;;;
      register_configured rest
  end.

(** The debug lines of the loop, one for each provider registered. *)
Definition registration_log (pps : list (string * Provider.t)) : world :=
  map (fun pp => LoggerDebug ("Registered social provider: "
                              +:+ provider_str pp.2)) pps.

(** What [configure_provider] returns for each configuration of a list, up
    to the first one it fails for. *)
Fixpoint configure_all (provider_configs : list pyval)
  : outcome (list (string * Provider.t)) :=
  match provider_configs with
  | [] => Return []
  | pc :: rest =>
      match configure_provider pc with
      | Return pp =>
          match configure_all rest with
          | Return pps => Return (pp :: pps)
          | Raise e => Raise e
          end
      | Raise e => Raise e
      end
  end.

End Registration.
End Registration.

Module MoreSamples.

(** The provider built around the remote application at location [l]. *)
Definition provider_of (l : loc) : Provider.t :=
  {| Provider.remote_app := VRef l;
     Provider.connection_factory := VRef 21%positive;
     Provider.login_handler := VRef 22%positive;
     Provider.connect_handler := VRef 23%positive |}.

(** A configurator that knows the configuration at location 7 as twitter's
    and takes any other dictionary for github's. *)
#[global] Instance views : Views :=
  {| configure_provider := fun pc =>
       match pc with
       | VRef l =>
           Return (if Pos.eqb l 7 then "twitter" else "github", provider_of l)
       | _ => Raise (TypeError "object is not subscriptable")
       end;
     remote_app_name := fun app =>
       match app with
       | VRef l => if Pos.eqb l 7 then "twitter" else "github"
       | _ => "?"
       end |}.

Definition empty_social : Social.t :=
  {| Social.providers := ∅;
     Social.datastore := VRef 30%positive;
     Social.oauth := VRef 31%positive |}.

(** Handlers of subclasses that were given no callback. *)
Definition login_without_callback : LoginHandler.t :=
  {| LoginHandler.provider_id := "twitter";
     LoginHandler.callback := None;
     LoginHandler.get_provider_user_id := fun _ => ret (VStr "tw-9") |}.

Definition connect_without_callback : ConnectHandler.t :=
  {| ConnectHandler.provider_id := "twitter";
     ConnectHandler.callback := None;
     ConnectHandler.get_connection_values := fun _ =>
       ret (VRef 5%positive) |}.

End MoreSamples.

(* ===================================================================== *)
(** * Part II: properties *)
(* ===================================================================== *)

(** ** ConnectionFactory *)

Section ConnectionFactoryFacts.
Context {S : Type} `{Collaborators S}.
Import ConnectionFactory.

Lemma as_dict_fields (c : Connection.t) :
  as_dict c = Return
    (<["image_url" := Connection.image_url c]>
    (<["profile_url" := Connection.profile_url c]>
    (<["display_name" := Connection.display_name c]>
    (<["secret" := Connection.secret c]>
    (<["access_token" := Connection.access_token c]>
    (<["provider_user_id" := Connection.provider_user_id c]>
    (<["provider_id" := Connection.provider_id c]>
    (<["user_id" := Connection.user_id c]> ∅)))))))).
Proof. reflexivity. Qed.

Lemma resolve_provider_user_id_only (self : t S) (p : pyval) (s : S) :
  is_None p = false ->
  resolve self VNone p s = (Return None, s).
Proof.
  intros Hp. unfold resolve, bind, ret. simpl. rewrite Hp. reflexivity.
Qed.

Lemma get_connection_resolved (self : t S) (uid puid : pyval)
    (s s1 : S) (c : Connection.t) :
  resolve self uid puid s = (Return (Some c), s1) ->
  get_connection self uid puid s =
    (api <- _create_api self c ;;
     rv <- lift (as_dict c) ;;
     lift (dict_with_api api rv)) s1.
Proof.
  intros Hres. unfold get_connection at 1, bind at 1.
  rewrite Hres. reflexivity.
Qed.

(** C2: called directly, a factory never raises ConnectionNotFoundError.
    It returns None exactly when [get_connection], called with the same
    keywords, raises ConnectionNotFoundError; when [get_connection] returns
    a mapping the call returns that mapping; any other exception of
    [get_connection] passes through.  The state reached is that of
    [get_connection] in every case. *)
Theorem call_swallows_connection_not_found (self : t S) (kwargs : dict)
    (s : S) :
  (forall s', __call__ self kwargs s <> (Raise ConnectionNotFoundError, s'))
  /\ (forall s',
        __call__ self kwargs s = (Return None, s') <->
        get_connection_kw self kwargs s
          = (Raise ConnectionNotFoundError, s'))
  /\ (forall rv s',
        get_connection_kw self kwargs s = (Return rv, s') ->
        __call__ self kwargs s = (Return (Some rv), s'))
  /\ (forall e s',
        e <> ConnectionNotFoundError ->
        get_connection_kw self kwargs s = (Raise e, s') ->
        __call__ self kwargs s = (Raise e, s')).
Proof.
  unfold __call__, try_except_not_found, bind, ret.
  destruct (get_connection_kw self kwargs s) as [[rv | e] s1] eqn:Hget.
  - repeat split; congruence.
  - destruct e; repeat split; try congruence.
Qed.

(** C3: with user_id absent and provider_user_id present none of the three
    branches of [get_connection] runs: no collaborator is called (the state
    is unchanged), the local [connection] is left unbound, and reading it
    raises UnboundLocalError before [_create_api] is reached. *)
Theorem get_connection_provider_user_id_only_unbound (self : t S)
    (provider_user_id : pyval) (s : S) :
  is_None provider_user_id = false ->
  resolve self VNone provider_user_id s = (Return None, s)
  /\ get_connection self VNone provider_user_id s
       = (Raise (UnboundLocalError "connection"), s).
Proof.
  intros Hp. split.
  - by apply resolve_provider_user_id_only.
  - unfold get_connection, bind at 1.
    rewrite resolve_provider_user_id_only by done. reflexivity.
Qed.

(** C9: when [get_connection] resolves a connection record and
    [_create_api] returns for it, the result is the mapping with the key
    'api', bound to what [_create_api] returned, and the eight fields
    user_id, provider_id, provider_user_id, access_token, secret,
    display_name, profile_url and image_url of the record, each with the
    record's value, and no other key.  The [_create_api] of the base class
    raises NotImplementedError, and so does [get_connection] on a factory
    that does not override it. *)
Theorem get_connection_result_mapping (self : t S) (uid puid : pyval)
    (s s1 s2 : S) (c : Connection.t) (api : pyval) :
  resolve self uid puid s = (Return (Some c), s1) ->
  _create_api self c s1 = (Return api, s2) ->
  (exists rv,
      get_connection self uid puid s = (Return rv, s2)
      /\ rv !! "api" = Some api
      /\ rv !! "user_id" = Some (Connection.user_id c)
      /\ rv !! "provider_id" = Some (Connection.provider_id c)
      /\ rv !! "provider_user_id" = Some (Connection.provider_user_id c)
      /\ rv !! "access_token" = Some (Connection.access_token c)
      /\ rv !! "secret" = Some (Connection.secret c)
      /\ rv !! "display_name" = Some (Connection.display_name c)
      /\ rv !! "profile_url" = Some (Connection.profile_url c)
      /\ rv !! "image_url" = Some (Connection.image_url c)
      /\ dom rv = list_to_set ("api" :: as_dict_keys))
  /\ (forall provider_id,
        _create_api (base provider_id) c s1
          = (Raise (NotImplementedError "create_api method not implemented"),
             s1)
        /\ (resolve (base provider_id) uid puid s = (Return (Some c), s1) ->
            get_connection (base provider_id) uid puid s
              = (Raise
                   (NotImplementedError "create_api method not implemented"),
                 s1))).
Proof.
  intros Hres Hapi. split.
  - eexists. split.
    + rewrite (get_connection_resolved _ _ _ _ _ _ Hres).
      unfold bind at 1. rewrite Hapi.
      unfold bind, lift. rewrite as_dict_fields. reflexivity.
    + repeat split; reflexivity.
  - intros pid. split; [reflexivity |].
    intros Hres'. rewrite (get_connection_resolved _ _ _ _ _ _ Hres').
    reflexivity.
Qed.

End ConnectionFactoryFacts.

Module SampleRuns.
Import ConnectionFactory Sample.

(** The four argument combinations on the sample datastore. *)
Example call_current_user :
  exists rv, __call__ twitter_factory ∅ 0 = (Return (Some rv), 1)
             /\ rv !! "provider_user_id" = Some (VStr "tw-9").
Proof. eexists. split; reflexivity. Qed.

Example call_unknown_user :
  __call__ twitter_factory {["user_id" := VInt 2]} 0 = (Return None, 1).
Proof. reflexivity. Qed.

Example get_connection_unknown_user :
  get_connection_kw twitter_factory {["user_id" := VInt 2]} 0
    = (Raise ConnectionNotFoundError, 1).
Proof. reflexivity. Qed.

Example call_provider_user_id_only :
  __call__ twitter_factory {["provider_user_id" := VStr "tw-9"]} 0
    = (Raise (UnboundLocalError "connection"), 0).
Proof. reflexivity. Qed.

Example call_unexpected_keyword :
  __call__ twitter_factory {["uid" := VInt 1]} 0
    = (Raise (TypeError
         "get_connection() got an unexpected keyword argument"), 0).
Proof. reflexivity. Qed.

End SampleRuns.

Lemma get_connection_provider_user_id_only_unbound_witness :
  is_None (VStr "tw-9") = false
  /\ ConnectionFactory.resolve Sample.twitter_factory VNone (VStr "tw-9") 0
       = (Return None, 0)
  /\ ConnectionFactory.get_connection Sample.twitter_factory VNone
       (VStr "tw-9") 0
       = (Raise (UnboundLocalError "connection"), 0).
Proof.
  split; [reflexivity |].
  apply (get_connection_provider_user_id_only_unbound
           Sample.twitter_factory (VStr "tw-9") 0).
  reflexivity.
Defined.

Lemma get_connection_result_mapping_witness :
  ConnectionFactory.resolve Sample.twitter_factory (VInt 1) VNone 0
    = (Return (Some Sample.stored), 1)
  /\ ConnectionFactory._create_api Sample.twitter_factory Sample.stored 1
      = (Return (VRef 7%positive), 1)
  /\ exists rv,
      ConnectionFactory.get_connection Sample.twitter_factory (VInt 1) VNone 0
        = (Return rv, 1)
      /\ rv !! "api" = Some (VRef 7%positive)
      /\ rv !! "user_id" = Some (VInt 1)
      /\ rv !! "provider_user_id" = Some (VStr "tw-9")
      /\ rv !! "image_url" = Some VNone
      /\ dom rv = list_to_set ("api" :: ConnectionFactory.as_dict_keys).
Proof.
  assert (Hres : ConnectionFactory.resolve Sample.twitter_factory
                   (VInt 1) VNone 0 = (Return (Some Sample.stored), 1))
    by reflexivity.
  assert (Hapi : ConnectionFactory._create_api Sample.twitter_factory
                   Sample.stored 1 = (Return (VRef 7%positive), 1))
    by reflexivity.
  split; [exact Hres | split; [exact Hapi |]].
  destruct (get_connection_result_mapping _ _ _ _ _ _ _ _ Hres Hapi)
    as [(rv & Hget & Ha & Hu & _ & Hp & _ & _ & _ & _ & Hi & Hdom) _].
  exists rv. repeat split; assumption.
Defined.

(** ** LoginHandler and ConnectHandler *)

Section HandlerFacts.
Context `{Flask}.

Lemma emit_run (e : event) (w : world) :
  emit e w = (Return tt, (w ++ [e])%list).
Proof. reflexivity. Qed.

(** C7: called with response None, a LoginHandler flashes the notice
    "Access was denied to your <display name> account" with category
    'error', returns the redirect to the application's login view, and the
    callback is not invoked: besides the debug trace, the notice is the
    only thing the handler emits. *)
Theorem login_denied_flashes_and_redirects (self : LoginHandler.t)
    (w : world) (name : string) (view : pyval) :
  get_display_name (LoginHandler.provider_id self) = Return name ->
  login_view = Return view ->
  exists emitted,
    LoginHandler.__call__ self VNone w
      = (Return (redirect view), (w ++ emitted)%list)
    /\ emitted =
         [LoggerDebug
            ("Received login response from " +:+ name +:+ ": None");
          DoFlash ("Access was denied to your " +:+ name +:+ " account")
                  "error"]
    /\ forall callee args, Invoke callee args ∉ emitted.
Proof.
  intros Hname Hview. eexists. split; [| split; [reflexivity |]].
  - unfold LoginHandler.__call__, bind, lift, logger_debug, do_flash, ret.
    rewrite Hname. simpl. rewrite Hview.
    by rewrite <- app_assoc.
  - intros callee args Hin.
    apply elem_of_cons in Hin as [Hin | Hin]; [discriminate |].
    apply elem_of_cons in Hin as [Hin | Hin]; [discriminate |].
    by apply elem_of_nil in Hin.
Qed.

(** C8: called with a response other than None and user_id None, a
    ConnectHandler calls [get_connection_values] on the response, calls the
    callback with the values it returned and None, and ends as the callback
    ends: the handler's result is the callback's. *)
Theorem connect_hands_values_to_callback (self : ConnectHandler.t)
    (response cv : pyval) (w w1 : world) (name : string)
    (cb : list pyval -> M world pyval) :
  is_None response = false ->
  get_display_name (ConnectHandler.provider_id self) = Return name ->
  ConnectHandler.callback self = Some cb ->
  ConnectHandler.get_connection_values self response
    (w ++ [LoggerDebug ("Received connect response from " +:+ name +:+ ". "
                        +:+ py_str str_obj response);
           Invoke "get_connection_values" [response]])%list
    = (Return cv, w1) ->
  ConnectHandler.__call__ self response VNone w
    = cb [cv; VNone] (w1 ++ [Invoke "callback" [cv; VNone]])%list.
Proof.
  intros Hresp Hname Hcb Hcv.
  unfold ConnectHandler.__call__, bind, lift, logger_debug, ret.
  rewrite Hname, Hresp, !emit_run. rewrite <- app_assoc. simpl.
  rewrite Hcv. unfold call_callback. rewrite Hcb.
  unfold bind. by rewrite emit_run.
Qed.

End HandlerFacts.

Lemma login_denied_flashes_and_redirects_witness :
  LoginHandler.__call__ Sample.twitter_login VNone []
  = (Return (VStr "302 FOUND /login"),
     [LoggerDebug "Received login response from Twitter: None";
      DoFlash "Access was denied to your Twitter account" "error"]).
Proof.
  assert (Hname : get_display_name
                    (LoginHandler.provider_id Sample.twitter_login)
                  = Return "Twitter") by reflexivity.
  assert (Hview : login_view = Return (VStr "/login")) by reflexivity.
  destruct (login_denied_flashes_and_redirects Sample.twitter_login []
              "Twitter" (VStr "/login") Hname Hview)
    as (emitted & Hrun & Hemitted & _).
  rewrite Hrun, Hemitted. reflexivity.
Defined.

Lemma connect_hands_values_to_callback_witness :
  ConnectHandler.__call__ Sample.twitter_connect (VRef 1%positive) VNone []
  = (Return (VInt 2),
     [LoggerDebug "Received connect response from Twitter. {'uid': '123'}";
      Invoke "get_connection_values" [VRef 1%positive];
      Invoke "callback" [VRef 5%positive; VNone];
      DoFlash "callback ran" "info"]).
Proof.
  rewrite (connect_hands_values_to_callback Sample.twitter_connect
             (VRef 1%positive) (VRef 5%positive) []
             [LoggerDebug
                "Received connect response from Twitter. {'uid': '123'}";
              Invoke "get_connection_values" [VRef 1%positive]]
             "Twitter" Sample.reporting_callback);
    reflexivity.
Defined.

(** ** Social: provider ids and attribute lookup *)

Section StringFacts.

Lemma replace_from_skip (old new x rest : string) :
  replace_from old new (x +:+ rest) (String.length x)
  = replace_from old new rest 0.
Proof.
  induction x as [| c x IH]; simpl.
  - by destruct rest.
  - exact IH.
Qed.

Lemma replace_from_absent (old new s : string) :
  occurs old s = false -> replace_from old new s 0 = s.
Proof.
  induction s as [| c s IH]; [done |].
  intros Hocc. cbn [occurs] in Hocc.
  apply orb_false_iff in Hocc as [Hpre Hocc].
  cbn [replace_from]. rewrite Hpre. f_equal. by apply IH.
Qed.

Lemma append_cons (c : ascii) (x rest : string) :
  String c x +:+ rest = String c (x +:+ rest).
Proof. reflexivity. Qed.

Lemma prefix_append (x rest : string) :
  String.prefix x (x +:+ rest) = true.
Proof.
  induction x as [| c x IH].
  - by destruct rest.
  - rewrite append_cons. simpl.
    destruct (Ascii.ascii_dec c c) as [_ | Hne]; [exact IH | by destruct Hne].
Qed.

Lemma replace_from_occurrence (c : ascii) (x new rest : string) :
  replace_from (String c x) new (String c x +:+ rest) 0
  = new +:+ replace_from (String c x) new rest 0.
Proof.
  pose proof (prefix_append (String c x) rest) as Hpre.
  rewrite append_cons in *. cbn [replace_from]. rewrite Hpre.
  cbn [String.length]. rewrite Nat.sub_1_r. cbn [Nat.pred].
  by rewrite replace_from_skip.
Qed.

(** X20: where the prefix occurs once, the provider id is the rest of the
    key in lower case. *)
Lemma provider_id_of_key_single_prefix (rest : string) :
  occurs "SOCIAL_" rest = false ->
  Social.provider_id_of_key ("SOCIAL_" +:+ rest) = lower rest.
Proof.
  intros Hocc. unfold Social.provider_id_of_key, replace.
  rewrite replace_from_occurrence.
  change ("" +:+ replace_from "SOCIAL_" "" rest 0)
    with (replace_from "SOCIAL_" "" rest 0).
  by rewrite replace_from_absent.
Qed.

End StringFacts.

(** C5: the key 'SOCIAL_MY_SOCIAL_APP' starts with the prefix and is not a
    global default key; the provider id the code derives from it is 'my_app',
    not the key without its leading prefix in lower case, 'my_social_app':
    [replace] removes every occurrence of 'SOCIAL_', not only the leading
    one. *)
Theorem provider_id_drops_inner_occurrence :
  startswith "SOCIAL_MY_SOCIAL_APP" "SOCIAL_" = true
  /\ contains Social.default_config "SOCIAL_MY_SOCIAL_APP" = false
  /\ Social.provider_id_of_key "SOCIAL_MY_SOCIAL_APP" = "my_app"
  /\ lower (drop_prefix (String.length "SOCIAL_") "SOCIAL_MY_SOCIAL_APP")
     = "my_social_app"
  /\ Social.provider_id_of_key "SOCIAL_MY_SOCIAL_APP"
     <> lower (drop_prefix (String.length "SOCIAL_") "SOCIAL_MY_SOCIAL_APP").
Proof. repeat split; try reflexivity. discriminate. Qed.

Section AttributeFacts.
Import Social.
Variable inherited : string -> bool.

Lemma getattr_method_unregistered (self : t) (name : string) :
  providers self !! name = None -> __getattr__ self name = None.
Proof. done. Qed.

(** C6, amended: for a name that is not registered as a provider and is
    not an attribute the object has by itself (the instance attributes
    providers, datastore and oauth, the methods of the class, the
    attributes of the base class), [social.<name>] evaluates to None and
    raises nothing; [__getattr__] itself returns None for every
    unregistered name. *)
Theorem getattr_unregistered_name_is_none (self : t) (name : string) :
  providers self !! name = None ->
  name ∉ ["providers"; "datastore"; "oauth"] ->
  name ∉ methods ->
  inherited name = false ->
  getattr inherited self name = AttrNone
  /\ __getattr__ self name = None.
Proof.
  intros Hreg Hinst Hmeth Hinh. split; [| done].
  unfold getattr, instance_attribute, class_attribute.
  rewrite !not_elem_of_cons in Hinst. destruct Hinst as (H1 & H2 & H3 & _).
  apply String.eqb_neq in H1, H2, H3. rewrite H1, H2, H3.
  rewrite bool_decide_eq_false_2 by done. rewrite Hinh. simpl.
  unfold __getattr__. by rewrite Hreg.
Qed.

End AttributeFacts.

(** C6, as stated, fails: 'providers' is not a registered provider of the
    sample object, yet [social.providers] is the registry, not None; likewise
    [social.datastore] is the datastore. *)
Lemma getattr_unregistered_name_not_none :
  Social.providers Sample.social !! "providers" = None
  /\ Social.getattr Sample.object_attributes Sample.social "providers"
     = Social.AttrRegistry {["twitter" := Sample.twitter_provider]}
  /\ Social.getattr Sample.object_attributes Sample.social "providers"
     <> Social.AttrNone
  /\ Social.providers Sample.social !! "datastore" = None
  /\ Social.getattr Sample.object_attributes Sample.social "datastore"
     = Social.AttrValue (VRef 30%positive).
Proof. repeat split; try reflexivity. discriminate. Qed.

Lemma getattr_unregistered_name_is_none_witness :
  Social.getattr Sample.object_attributes Sample.social "facebook"
    = Social.AttrNone
  /\ Social.__getattr__ Sample.social "facebook" = None.
Proof.
  apply (getattr_unregistered_name_is_none Sample.object_attributes
           Sample.social "facebook").
  - reflexivity.
  - apply (bool_decide_unpack _). by vm_compute.
  - apply (bool_decide_unpack _). by vm_compute.
  - reflexivity.
Defined.

(** ** Social: configuration normalization *)

Section FrameFacts.
Context `{ConfigUtils}.
(** The heap before, and a property of [app.config] that assignments to the
    keys in [written] keep. *)
Variable h0 : gmap loc dict.
Variable P : dict -> Prop.
Variable written : string -> Prop.
#[local] Abbreviation kept := (kept h0 P).
#[local] Abbreviation triple := (triple h0 P).
#[local] Abbreviation outside := (outside h0).
Hypothesis P_insert : forall c k v, written k -> P c -> P (<[k := v]> c).

Lemma triple_ret {A} (a : A) (Q : A -> Prop) : Q a -> triple (ret a) Q.
Proof. intros HQ st Hst. split; [done |]. simpl. by intros ? [= <-]. Qed.

Lemma triple_lift {A} (o : outcome A) : triple (lift o) (fun _ => True).
Proof. by intros st Hst. Qed.

Lemma triple_bind {A B} (m : M app_state A) (k : A -> M app_state B)
    (Q : A -> Prop) (R : B -> Prop) :
  triple m Q -> (forall a, Q a -> triple (k a) R) -> triple (bind m k) R.
Proof.
  intros Hm Hk st Hst. unfold bind.
  destruct (Hm st Hst) as [Hkept HQ].
  destruct (m st) as [[a | e] st1]; simpl in *.
  - by apply (Hk a (HQ a eq_refl)).
  - by split.
Qed.

Lemma triple_weaken {A} (m : M app_state A) (Q R : A -> Prop) :
  triple m Q -> (forall a, Q a -> R a) -> triple m R.
Proof.
  intros Hm HQR st Hst. destruct (Hm st Hst) as [Hkept HQ].
  split; [done |]. intros a Ha. by apply HQR, HQ.
Qed.

Lemma triple_dict_copy (v : pyval) : triple (dict_copy v) outside.
Proof.
  intros st [Hsub HP]. unfold dict_copy.
  destruct v as [| | | | l]; try by (split; [split |]).
  destruct (heap st !! l) as [d |] eqn:Hl; [| by (split; [split |])].
  pose proof (is_fresh (dom (heap st))) as Hfresh.
  apply not_elem_of_dom in Hfresh.
  pose proof (lookup_weaken_None _ _ _ Hfresh Hsub) as Hout.
  split; [split |]; simpl.
  - by apply insert_subseteq_r.
  - done.
  - by intros a [= <-].
Qed.

Lemma triple_getitem (v : pyval) (k : string) :
  triple (getitem v k) (fun _ => True).
Proof.
  intros st Hst. unfold getitem.
  destruct v as [| | | | l]; try done.
  destruct (heap st !! l) as [d |]; [| done].
  by destruct (d !! k).
Qed.

Lemma triple_setitem (target : pyval) (k : string) (v : pyval) :
  outside target -> triple (setitem target k v) (fun _ => True).
Proof.
  intros Hout st [Hsub HP]. unfold setitem.
  destruct target as [| | | | l]; try done.
  destruct (heap st !! l) as [d |]; [| done].
  split; [split |]; simpl; [| done..].
  by apply insert_subseteq_r.
Qed.

Lemma triple_dict_update (target src : pyval) :
  outside target -> triple (dict_update target src) (fun _ => True).
Proof.
  intros Hout st [Hsub HP]. unfold dict_update.
  destruct target as [| | | | l]; try done.
  destruct (heap st !! l) as [d |]; [| done].
  destruct src as [| | | s | ls]; try done.
  - by destruct s.
  - destruct (heap st !! ls) as [ds |]; [| done].
    split; [split |]; simpl; [| done..].
    by apply insert_subseteq_r.
Qed.

Lemma triple_config_getitem (key : string) :
  triple (config_getitem key) (fun _ => True).
Proof.
  intros st Hst. unfold config_getitem. by destruct (config st !! key).
Qed.

Lemma triple_config_get (key : string) :
  triple (config_get key) (fun _ => True).
Proof. by intros st Hst. Qed.

Lemma triple_config_setitem (key : string) (v : pyval) :
  written key -> triple (config_setitem key v) (fun _ => True).
Proof.
  intros Hw st [Hsub HP]. split; [split |]; simpl; [done | | done].
  by apply P_insert.
Qed.

Lemma triple_merge_with_defaults (key provider_id : string) :
  written key ->
  triple (Social.merge_with_defaults key provider_id) (fun _ => True).
Proof.
  intros Hw. unfold Social.merge_with_defaults.
  eapply triple_bind; [apply triple_lift |]. intros dflt _.
  eapply triple_bind; [apply triple_dict_copy |]. intros d_config Hc.
  eapply triple_bind; [apply triple_getitem |]. intros d_oauth _.
  eapply triple_bind; [apply triple_dict_copy |]. intros d_oauth_config Ho.
  eapply triple_bind; [apply triple_config_getitem |]. intros app_cfg _.
  eapply triple_bind; [by apply triple_dict_update |]. intros _ _.
  eapply triple_bind; [apply triple_config_getitem |]. intros app_cfg' _.
  eapply triple_bind; [apply triple_getitem |]. intros app_oauth _.
  eapply triple_bind; [by apply triple_dict_update |]. intros _ _.
  eapply triple_bind; [by apply triple_setitem |]. intros _ _.
  eapply triple_bind; [by apply triple_config_setitem |]. intros _ _.
  by apply triple_ret.
Qed.

(** The loop assigns to [app.config] at built-in provider keys only. *)
Hypothesis builtin_written : forall k, Social.builtin_key k -> written k.

Lemma triple_scan_key (key : string) (pcs : list pyval) :
  triple (Social.scan_key key pcs) (fun pcs' => forall v, v ∈ pcs -> v ∈ pcs').
Proof.
  unfold Social.scan_key.
  destruct (startswith key "SOCIAL_") eqn:Hs;
    destruct (contains Social.default_config key) eqn:Hc;
    try by apply triple_ret.
  simpl.
  destruct (decide (Social.provider_id_of_key key
                      ∈ get_default_provider_names)) as [Hid | Hid].
  - rewrite bool_decide_eq_true_2 by done. simpl.
    eapply triple_bind.
    + apply triple_merge_with_defaults, builtin_written. by repeat split.
    + intros d_config _. apply triple_ret.
      intros v Hv. apply elem_of_app. by left.
  - rewrite bool_decide_eq_false_2 by done. simpl.
    eapply triple_bind; [apply triple_config_get |]. intros v _.
    apply triple_ret. intros v' Hv. apply elem_of_app. by left.
Qed.

Lemma triple_scan_keys (keys : list string) (pcs : list pyval) :
  triple (Social.scan_keys keys pcs)
         (fun pcs' => forall v, v ∈ pcs -> v ∈ pcs').
Proof.
  revert pcs. induction keys as [| key rest IH]; intros pcs; simpl.
  - by apply triple_ret.
  - eapply triple_bind; [apply triple_scan_key |]. intros pcs1 Hpcs1.
    eapply triple_weaken; [apply IH |]. intros pcs' Hpcs' v Hv.
    by apply Hpcs', Hpcs1.
Qed.
End FrameFacts.

Section MergeFacts.
Context `{ConfigUtils}.

Lemma merge_with_defaults_run (key provider_id : string) (st : app_state)
    (ld lo la lao : loc) (dd od ad aod : dict) :
  get_class_from_string (Social.default_config_path provider_id)
    = Return (VRef ld) ->
  heap st !! ld = Some dd ->
  dd !! "oauth" = Some (VRef lo) ->
  heap st !! lo = Some od ->
  config st !! key = Some (VRef la) ->
  heap st !! la = Some ad ->
  ad !! "oauth" = Some (VRef lao) ->
  heap st !! lao = Some aod ->
  let ln := fresh (dom (heap st)) in
  let lno := fresh (dom (<[ln := dd]> (heap st))) in
  Social.merge_with_defaults key provider_id st
  = (Return (VRef ln),
     {| config := <[key := VRef ln]> (config st);
        heap := <[ln := <["oauth" := VRef lno]> (ad ∪ dd)]>
                  (<[lno := aod ∪ od]>
                     (<[ln := ad ∪ dd]>
                        (<[lno := od]> (<[ln := dd]> (heap st))))) |}).
Proof.
  intros Hcls Hld Hlo Hod Hcfg Had Hlao Haod ln lno.
  assert (Hln : heap st !! ln = None)
    by apply not_elem_of_dom, is_fresh.
  assert (Hlno : <[ln := dd]> (heap st) !! lno = None)
    by apply not_elem_of_dom, is_fresh.
  assert (Hne : ln <> lno).
  { intros Heq. rewrite <- Heq, lookup_insert_eq in Hlno. done. }
  assert (Hlno' : heap st !! lno = None).
  { by rewrite lookup_insert_ne in Hlno. }
  assert (Hfresh : forall l d, heap st !! l = Some d -> l <> ln /\ l <> lno).
  { intros l d Hl. split; intros ->; congruence. }
  destruct (Hfresh _ _ Hld) as [? ?]. destruct (Hfresh _ _ Hod) as [? ?].
  destruct (Hfresh _ _ Had) as [? ?]. destruct (Hfresh _ _ Haod) as [? ?].
  unfold Social.merge_with_defaults, bind, lift.
  rewrite Hcls.
  unfold dict_copy, getitem, dict_update, setitem, config_getitem,
    config_setitem, modify, ret, set_heap, set_config.
  fold ln.
  repeat (cbn [heap config];
          first [ rewrite lookup_insert_eq
                | rewrite lookup_insert_ne by done
                | rewrite Hld | rewrite Hlo | rewrite Hod | rewrite Hcfg
                | rewrite Had | rewrite Hlao | rewrite Haod ]).
  reflexivity.
Qed.
End MergeFacts.

Section SeedFacts.
Context `{ConfigUtils}.
Import Social.

Lemma setdefault_lookup_some (k k' : string) (v v' : pyval) (c : dict) :
  c !! k = Some v -> setdefault k' v' c !! k = Some v.
Proof.
  intros Hk. unfold setdefault.
  destruct (c !! k') eqn:Hk'; [done |].
  rewrite lookup_insert_ne; [done | congruence].
Qed.

Lemma setdefault_lookup_ne (k k' : string) (v' : pyval) (c : dict) :
  k <> k' -> setdefault k' v' c !! k = c !! k.
Proof.
  intros Hne. unfold setdefault.
  destruct (c !! k'); [done |]. by rewrite lookup_insert_ne.
Qed.

Lemma seed_lookup_some (l : list (string * pyval)) (c : dict) k v :
  c !! k = Some v ->
  foldl (fun acc kv => setdefault kv.1 kv.2 acc) c l !! k = Some v.
Proof.
  revert c. induction l as [| [k' v'] l IH]; intros c Hk; [done |].
  simpl. apply IH. by apply setdefault_lookup_some.
Qed.

Lemma seed_lookup_other (l : list (string * pyval)) (c : dict) k :
  k ∉ l.*1 ->
  foldl (fun acc kv => setdefault kv.1 kv.2 acc) c l !! k = c !! k.
Proof.
  revert c. induction l as [| [k' v'] l IH]; intros c Hk; [done |].
  simpl in *. apply not_elem_of_cons in Hk as [Hne Hk].
  rewrite IH by done. by apply setdefault_lookup_ne.
Qed.

Lemma default_config_keys (k : string) :
  k ∈ (map_to_list default_config).*1 <-> contains default_config k = true.
Proof.
  unfold contains. rewrite list_elem_of_fmap. split.
  - intros [[k' v] [-> Hin]]. apply elem_of_map_to_list in Hin.
    simpl. by rewrite Hin.
  - destruct (default_config !! k) as [v |] eqn:Hk; [| done].
    intros _. exists (k, v). split; [done |].
    by apply elem_of_map_to_list.
Qed.

Lemma seed_defaults_run (st : app_state) :
  exists c,
    seed_defaults st = (Return tt, {| config := c; heap := heap st |})
    /\ (forall k v, config st !! k = Some v -> c !! k = Some v)
    /\ (forall k, contains default_config k = false ->
                  c !! k = config st !! k).
Proof.
  eexists. split; [reflexivity |]. split.
  - intros k v. apply seed_lookup_some.
  - intros k Hk. apply seed_lookup_other.
    rewrite default_config_keys. by rewrite Hk.
Qed.
End SeedFacts.

Section ScanFacts.
Context `{ConfigUtils}.
Import Social.

Lemma scan_key_other (key : string) (pcs : list pyval) (st : app_state) :
  ~ provider_key key -> scan_key key pcs st = (Return pcs, st).
Proof.
  intros Hnot. unfold scan_key.
  destruct (startswith key "SOCIAL_") eqn:Hs;
    destruct (contains default_config key) eqn:Hc; try done.
  by destruct Hnot.
Qed.

Lemma scan_key_custom (key : string) (pcs : list pyval) (st : app_state) :
  custom_key key ->
  scan_key key pcs st
  = (Return (pcs ++ [default VNone (config st !! key)]), st).
Proof.
  intros [[Hs Hc] Hid]. unfold scan_key. rewrite Hs, Hc.
  by rewrite bool_decide_eq_false_2.
Qed.

Lemma scan_key_builtin_run (key : string) (pcs : list pyval)
    (st : app_state) (dd od ad aod : dict) :
  builtin_key key ->
  mergeable st key dd od ad aod ->
  exists ln lno st1,
    scan_key key pcs st = (Return (pcs ++ [VRef ln]), st1)
    /\ heap st !! ln = None
    /\ heap st !! lno = None
    /\ heap st ⊆ heap st1
    /\ config st1 = <[key := VRef ln]> (config st)
    /\ heap st1 !! ln = Some (<["oauth" := VRef lno]> (ad ∪ dd))
    /\ heap st1 !! lno = Some (aod ∪ od).
Proof.
  intros [[Hs Hc] Hid] (ld & lo & la & lao & Hcls & Hld & Hlo & Hod
                          & Hcfg & Had & Hlao & Haod).
  pose proof (merge_with_defaults_run key _ st _ _ _ _ _ _ _ _
                Hcls Hld Hlo Hod Hcfg Had Hlao Haod) as Hrun.
  cbv zeta in Hrun.
  set (ln := fresh (dom (heap st))) in *.
  set (lno := fresh (dom (<[ln := dd]> (heap st)))) in *.
  assert (Hln : heap st !! ln = None)
    by apply not_elem_of_dom, is_fresh.
  assert (Hlno : <[ln := dd]> (heap st) !! lno = None)
    by apply not_elem_of_dom, is_fresh.
  assert (Hne : ln <> lno).
  { intros Heq. rewrite <- Heq, lookup_insert_eq in Hlno. done. }
  assert (Hlno' : heap st !! lno = None).
  { by rewrite lookup_insert_ne in Hlno. }
  exists ln, lno. eexists.
  split; [| split; [exact Hln | split; [exact Hlno' | split; [| split]]]].
  - unfold scan_key, bind. rewrite Hs, Hc.
    rewrite bool_decide_eq_true_2 by done. simpl.
    rewrite Hrun. reflexivity.
  - simpl. by repeat apply insert_subseteq_r.
  - reflexivity.
  - simpl. split.
    + by rewrite lookup_insert_eq.
    + by rewrite lookup_insert_ne, lookup_insert_eq.
Qed.

Lemma scan_key_builtin (key : string) (pcs : list pyval) (st : app_state)
    (dd od ad aod : dict) :
  builtin_key key ->
  mergeable st key dd od ad aod ->
  exists ln st1,
    scan_key key pcs st = (Return (pcs ++ [VRef ln]), st1)
    /\ heap st !! ln = None
    /\ heap st ⊆ heap st1
    /\ config st1 = <[key := VRef ln]> (config st)
    /\ merged st1 key (pcs ++ [VRef ln]) dd od ad aod.
Proof.
  intros Hb Hm.
  destruct (scan_key_builtin_run key pcs st _ _ _ _ Hb Hm)
    as (ln & lno & st1 & Hstep & Hln & _ & Hsub & Hcfg & Hcfg1 & Hoauth1).
  exists ln, st1. repeat split; try done.
  exists ln, lno. repeat split; try done.
  - by rewrite Hcfg, lookup_insert_eq.
  - apply elem_of_app. right. by apply list_elem_of_singleton.
Qed.

Lemma mergeable_mono (st st1 : app_state) (key : string)
    (dd od ad aod : dict) :
  heap st ⊆ heap st1 ->
  config st1 !! key = config st !! key ->
  mergeable st key dd od ad aod -> mergeable st1 key dd od ad aod.
Proof.
  intros Hsub Hcfg (ld & lo & la & lao & ? & ? & ? & ? & ? & ? & ? & ?).
  exists ld, lo, la, lao.
  repeat split; try done; try by eapply lookup_weaken.
  congruence.
Qed.

Lemma merged_mono (st st1 : app_state) (key : string)
    (pcs pcs1 : list pyval) (dd od ad aod : dict) :
  heap st ⊆ heap st1 ->
  config st1 !! key = config st !! key ->
  (forall v, v ∈ pcs -> v ∈ pcs1) ->
  merged st key pcs dd od ad aod -> merged st1 key pcs1 dd od ad aod.
Proof.
  intros Hsub Hcfg Hpcs (ln & lno & ? & ? & ? & ?).
  exists ln, lno.
  repeat split; try by eapply lookup_weaken.
  - congruence.
  - by apply Hpcs.
Qed.

(** The loop returns when every built-in key it meets is mergeable. *)
Lemma scan_keys_run (keys : list string) :
  NoDup keys ->
  forall (pcs : list pyval) (st : app_state),
  (forall k, k ∈ keys -> builtin_key k ->
             exists dd od ad aod, mergeable st k dd od ad aod) ->
  exists pcs' st',
    scan_keys keys pcs st = (Return pcs', st')
    /\ heap st ⊆ heap st'
    /\ (forall k, k ∉ keys -> config st' !! k = config st !! k)
    /\ (forall v, v ∈ pcs -> v ∈ pcs')
    /\ (forall k dd od ad aod,
          k ∈ keys -> builtin_key k -> mergeable st k dd od ad aod ->
          merged st' k pcs' dd od ad aod)
    /\ (forall k, k ∈ keys -> custom_key k ->
          config st' !! k = config st !! k
          /\ default VNone (config st !! k) ∈ pcs').
Proof.
  induction 1 as [| key rest Hnotin Hnodup IH]; intros pcs st Hwf.
  { exists pcs, st. split; [done |]. split; [done |].
    repeat split; try done.
    all: intros; by match goal with Hin : _ ∈ [] |- _ =>
                      apply elem_of_nil in Hin end. }
  assert (Hrest : forall st1,
             heap st ⊆ heap st1 ->
             (forall k, k <> key -> config st1 !! k = config st !! k) ->
             forall k, k ∈ rest -> builtin_key k ->
             exists dd od ad aod, mergeable st1 k dd od ad aod).
  { intros st1 Hsub Hcfg k Hk Hb.
    destruct (Hwf k) as (dd & od & ad & aod & Hm);
      [by apply elem_of_cons; right | done |].
    exists dd, od, ad, aod. eapply mergeable_mono; [done | | done].
    apply Hcfg. by intros ->. }
  destruct (decide (provider_key key)) as [Hpk | Hnpk];
    [destruct (decide (provider_id_of_key key ∈ get_default_provider_names))
       as [Hid | Hid] |].
  - (* a built-in provider *)
    assert (Hb : builtin_key key) by done.
    destruct (Hwf key) as (dd0 & od0 & ad0 & aod0 & Hm0);
      [by apply elem_of_cons; left | done |].
    destruct (scan_key_builtin key pcs st _ _ _ _ Hb Hm0)
      as (ln & st1 & Hstep & Hfresh & Hsub & Hcfg & _).
    assert (Hcfg1 : forall k, k <> key -> config st1 !! k = config st !! k).
    { intros k Hk. by rewrite Hcfg, lookup_insert_ne. }
    destruct (IH (pcs ++ [VRef ln]) st1 (Hrest st1 Hsub Hcfg1))
      as (pcs' & st' & Hrun & Hsub' & Hcfg' & Hpcs' & Hmerged & Hcustom).
    exists pcs', st'. split; [| split; [| split; [| split; [| split]]]].
    + simpl. unfold bind. by rewrite Hstep.
    + by etrans.
    + intros k Hk. apply not_elem_of_cons in Hk as [Hne Hk].
      by rewrite Hcfg', Hcfg1.
    + intros v Hv. apply Hpcs', elem_of_app. by left.
    + intros k dd od ad aod Hk Hbk Hm.
      apply elem_of_cons in Hk as [-> | Hk].
      * destruct (scan_key_builtin key pcs st _ _ _ _ Hb Hm)
          as (ln2 & st2 & Hstep2 & _ & _ & _ & Hmerged2).
        rewrite Hstep in Hstep2. injection Hstep2 as Hpcs2 <-.
        apply app_inj_tail in Hpcs2 as [_ [= <-]].
        eapply merged_mono; [exact Hsub' | by apply Hcfg' | exact Hpcs' |].
        exact Hmerged2.
      * apply Hmerged; [done.. |].
        eapply mergeable_mono; [done | | done].
        apply Hcfg1. by intros ->.
    + intros k Hk Hck. apply elem_of_cons in Hk as [-> | Hk].
      * by destruct Hck as [_ Hck].
      * destruct (Hcustom k Hk Hck) as [Hc1 Hc2].
        assert (k <> key) by (by intros ->).
        rewrite Hc1. rewrite Hcfg1 in Hc2 by done.
        by rewrite Hcfg1.
  - (* a custom provider *)
    assert (Hc : custom_key key) by done.
    destruct (IH (pcs ++ [default VNone (config st !! key)]) st)
      as (pcs' & st' & Hrun & Hsub' & Hcfg' & Hpcs' & Hmerged & Hcustom).
    { by apply Hrest. }
    exists pcs', st'. split; [| split; [| split; [| split; [| split]]]].
    + simpl. unfold bind. by rewrite scan_key_custom.
    + done.
    + intros k Hk. apply not_elem_of_cons in Hk as [Hne Hk]. by apply Hcfg'.
    + intros v Hv. apply Hpcs', elem_of_app. by left.
    + intros k dd od ad aod Hk Hbk Hm.
      apply elem_of_cons in Hk as [-> | Hk].
      * by destruct Hbk as [_ Hbk].
      * by apply Hmerged.
    + intros k Hk Hck. apply elem_of_cons in Hk as [-> | Hk].
      * split; [by apply Hcfg' |].
        apply Hpcs', elem_of_app. right. by apply list_elem_of_singleton.
      * by apply Hcustom.
  - (* not a provider key *)
    destruct (IH pcs st)
      as (pcs' & st' & Hrun & Hsub' & Hcfg' & Hpcs' & Hmerged & Hcustom).
    { by apply Hrest. }
    exists pcs', st'. split; [| split; [| split; [| split; [| split]]]].
    + simpl. unfold bind. by rewrite scan_key_other.
    + done.
    + intros k Hk. apply not_elem_of_cons in Hk as [Hne Hk]. by apply Hcfg'.
    + done.
    + intros k dd od ad aod Hk Hbk Hm.
      apply elem_of_cons in Hk as [-> | Hk].
      * by destruct Hbk as [Hbk _].
      * by apply Hmerged.
    + intros k Hk Hck. apply elem_of_cons in Hk as [-> | Hk].
      * by destruct Hck as [Hck _].
      * by apply Hcustom.
Qed.
End ScanFacts.

Section NormalizationFacts.
Context `{ConfigUtils}.
Import Social.

Lemma normalize_config_unfold (st : app_state) (c : dict) :
  seed_defaults st = (Return tt, {| config := c; heap := heap st |}) ->
  normalize_config st
  = scan_keys (map_to_list c).*1 [] {| config := c; heap := heap st |}.
Proof.
  intros Hseed. unfold normalize_config, bind at 1. rewrite Hseed.
  reflexivity.
Qed.

(** Whatever the outcome, the dictionaries that exist before the
    normalization keep their items, and [app.config] keeps its value at
    every key that is not a built-in provider's. *)
Lemma normalize_config_frame (st : app_state) :
  heap st ⊆ heap (normalize_config st).2
  /\ forall k, ~ builtin_key k -> is_Some (config st !! k) ->
               config (normalize_config st).2 !! k = config st !! k.
Proof.
  destruct (seed_defaults_run st) as (c & Hseed & Hsome & Hother).
  rewrite (normalize_config_unfold _ _ Hseed). clear Hseed.
  set (st0 := {| config := c; heap := heap st |}).
  split.
  - destruct (triple_scan_keys (heap st) (fun _ => True) (fun _ => True)
                (fun _ _ _ _ _ => I) (fun _ _ => I)
                (map_to_list c).*1 [] st0) as [[Hsub _] _]; [| exact Hsub].
    by split.
  - intros k Hk [v Hv]. rewrite Hv.
    destruct (triple_scan_keys (heap st)
                (fun c' => c' !! k = Some v) (fun k' => k' <> k))
      with (keys := (map_to_list c).*1) (pcs := @nil pyval) (st := st0)
      as [[_ Hkept] _]; [| | | exact Hkept].
    + intros c' k' v' Hne Hc'. by rewrite lookup_insert_ne.
    + by intros k' Hb ->.
    + split; [done |]. by apply Hsome.
Qed.

Lemma scan_keys_collects (key : string) (v : pyval) (keys : list string) :
  custom_key key -> key ∈ keys ->
  forall pcs st pcs' st',
  config st !! key = Some v ->
  scan_keys keys pcs st = (Return pcs', st') ->
  v ∈ pcs'.
Proof.
  intros Hc. induction keys as [| k0 rest IH]; intros Hin pcs st pcs' st' Hv.
  { by apply elem_of_nil in Hin. }
  simpl. unfold bind.
  destruct (decide (k0 = key)) as [-> | Hne].
  - rewrite scan_key_custom by done. intros Hrun.
    pose proof (triple_scan_keys ∅ (fun _ => True) (fun _ => True)
                  (fun _ _ _ _ _ => I) (fun _ _ => I) rest
                  (pcs ++ [default VNone (config st !! key)]) st) as Ht.
    destruct Ht as [_ Ht]; [split; [apply map_empty_subseteq | done] |].
    rewrite Hrun in Ht. apply (Ht pcs' eq_refl).
    rewrite Hv. apply elem_of_app. right. by apply list_elem_of_singleton.
  - apply elem_of_cons in Hin as [-> | Hin]; [done |].
    assert (Hins : forall (c' : dict) k' v',
               k' <> key -> c' !! key = Some v ->
               <[k' := v']> c' !! key = Some v).
    { intros c' k' v' Hne' Hc'. by rewrite lookup_insert_ne. }
    assert (Hbw : forall k', builtin_key k' -> k' <> key).
    { intros k' [_ Hb] ->. by destruct Hc as [_ Hc]. }
    destruct (triple_scan_key ∅ (fun c' => c' !! key = Some v)
                (fun k' => k' <> key) Hins Hbw k0 pcs st)
      as [[_ Hkept] _].
    { split; [apply map_empty_subseteq | done]. }
    destruct (scan_key k0 pcs st) as [[pcs1 | e] st1]; [| done].
    intros Hrun. by eapply IH.
Qed.

Lemma union_lookup (m1 m2 : dict) (k : string) :
  (m1 ∪ m2) !! k = match m1 !! k with Some v => Some v | None => m2 !! k end.
Proof.
  rewrite lookup_union. by destruct (m1 !! k), (m2 !! k).
Qed.

(** C1: for a built-in provider key whose default and application
    configurations are dictionaries with an 'oauth' dictionary each, and an
    application whose other built-in provider keys are so too, the
    normalization returns and leaves under the key a dictionary [cfg] with
    the application's items over the default items, whose 'oauth' item is a
    dictionary [ocfg] with the application's oauth items over the default
    oauth items: every default oauth key the application did not override,
    and the application's value for every key it did. *)
Theorem normalize_config_merges_over_defaults (st : app_state)
    (key : string) (dd od ad aod : dict) :
  builtin_key key ->
  mergeable st key dd od ad aod ->
  (forall k, is_Some (config st !! k) -> builtin_key k ->
             exists dd' od' ad' aod', mergeable st k dd' od' ad' aod') ->
  exists pcs st' ln lno cfg ocfg,
    normalize_config st = (Return pcs, st')
    /\ config st' !! key = Some (VRef ln)
    /\ VRef ln ∈ pcs
    /\ heap st' !! ln = Some cfg
    /\ cfg !! "oauth" = Some (VRef lno)
    /\ heap st' !! lno = Some ocfg
    /\ (forall k, k <> "oauth" ->
          cfg !! k = match ad !! k with
                     | Some v => Some v
                     | None => dd !! k
                     end)
    /\ ocfg = aod ∪ od
    /\ (forall k,
          ocfg !! k = match aod !! k with
                      | Some v => Some v
                      | None => od !! k
                      end).
Proof.
  intros Hb Hm Hall.
  destruct (seed_defaults_run st) as (c & Hseed & Hsome & Hother).
  rewrite (normalize_config_unfold _ _ Hseed). clear Hseed.
  set (st0 := {| config := c; heap := heap st |}).
  assert (Hkeep : forall k, builtin_key k -> c !! k = config st !! k).
  { intros k [[_ Hk] _]. by apply Hother. }
  assert (Hm0 : forall k dd od ad aod,
             builtin_key k -> mergeable st k dd od ad aod ->
             mergeable st0 k dd od ad aod).
  { intros k ? ? ? ? Hk. apply mergeable_mono; [done |]. by apply Hkeep. }
  destruct (scan_keys_run (map_to_list c).*1 (NoDup_fst_map_to_list c)
              [] st0)
    as (pcs & st' & Hrun & _ & _ & _ & Hmerged & _).
  { intros k Hk Hbk.
    apply list_elem_of_fmap in Hk as [[k' v] [-> Hk]].
    apply elem_of_map_to_list in Hk. simpl in *.
    rewrite Hkeep in Hk by done.
    destruct (Hall k') as (dd' & od' & ad' & aod' & Hm'); [by eexists | done |].
    exists dd', od', ad', aod'. by apply Hm0. }
  destruct (Hmerged key dd od ad aod) as (ln & lno & ? & ? & ? & ?);
    [| done | by apply Hm0 |].
  { destruct Hm as (? & ? & la & ? & ? & ? & ? & ? & Hcfg & ?).
    apply list_elem_of_fmap. exists (key, VRef la). split; [done |].
    apply elem_of_map_to_list. by rewrite Hkeep. }
  exists pcs, st', ln, lno. eexists. eexists.
  repeat split; try done.
  - by rewrite lookup_insert_eq.
  - intros k Hk. rewrite lookup_insert_ne by done. apply union_lookup.
  - apply union_lookup.
Qed.
(** C4: for a key with the prefix 'SOCIAL_' whose provider id is not built
    in, [app.config] holds the application's value under the key after the
    normalization as before it, and every dictionary that existed before (so
    the one the value refers to) has the items it had: nothing is injected,
    nothing merged.  When the key is not a global default key, the loop body
    appends that value to the provider configurations and changes nothing,
    and the value is among the configurations the normalization returns. *)
Theorem custom_provider_config_passes_through (st : app_state)
    (key : string) (v : pyval) :
  startswith key "SOCIAL_" = true ->
  provider_id_of_key key ∉ get_default_provider_names ->
  config st !! key = Some v ->
  config (normalize_config st).2 !! key = Some v
  /\ (forall l d, heap st !! l = Some d ->
                  heap (normalize_config st).2 !! l = Some d)
  /\ (contains default_config key = false ->
      (forall pcs, scan_key key pcs st = (Return (pcs ++ [v]), st))
      /\ forall pcs', (normalize_config st).1 = Return pcs' -> v ∈ pcs').
Proof.
  intros Hs Hid Hv.
  destruct (normalize_config_frame st) as [Hsub Hcfg].
  split; [| split].
  - rewrite Hcfg, Hv; [done | | by eexists].
    by intros [_ Hb].
  - intros l d Hl. by eapply lookup_weaken.
  - intros Hg. assert (Hc : custom_key key) by done.
    clear Hsub Hcfg. split.
    + intros pcs. by rewrite scan_key_custom, Hv.
    + destruct (seed_defaults_run st) as (c & Hseed & Hsome & _).
      rewrite (normalize_config_unfold _ _ Hseed). clear Hseed.
      intros pcs' Hret.
      destruct (scan_keys _ _ _) as [r st'] eqn:Hrun. simpl in Hret. subst r.
      eapply (scan_keys_collects key v); [done | | | exact Hrun].
      * apply list_elem_of_fmap. exists (key, v). split; [done |].
        by apply elem_of_map_to_list, Hsome.
      * by apply Hsome.
Qed.

(** C10: the normalization writes only to the copies it makes.  Whatever its
    outcome, every dictionary that existed before it has the items it had; in
    particular the compiled-in default configuration of every provider and
    its 'oauth' dictionary.  The merge for a built-in key is done in two
    dictionaries that did not exist before.  So a later normalization, of any
    application configuration, reads the same defaults. *)
Theorem normalize_config_keeps_default_objects (st : app_state) :
  (forall l d, heap st !! l = Some d ->
               heap (normalize_config st).2 !! l = Some d)
  /\ (forall provider_id ld dd,
        get_class_from_string (default_config_path provider_id)
          = Return (VRef ld) ->
        heap st !! ld = Some dd ->
        heap (normalize_config st).2 !! ld = Some dd
        /\ forall lo od,
             dd !! "oauth" = Some (VRef lo) ->
             heap st !! lo = Some od ->
             heap (normalize_config st).2 !! lo = Some od)
  /\ (forall key pcs dd od ad aod,
        builtin_key key ->
        mergeable st key dd od ad aod ->
        exists ln lno st1,
          scan_key key pcs st = (Return (pcs ++ [VRef ln]), st1)
          /\ heap st !! ln = None
          /\ heap st !! lno = None
          /\ heap st1 !! ln = Some (<["oauth" := VRef lno]> (ad ∪ dd))
          /\ heap st1 !! lno = Some (aod ∪ od)
          /\ forall l d, heap st !! l = Some d -> heap st1 !! l = Some d)
  /\ (forall c2 key dd od ad aod,
        mergeable {| config := c2; heap := heap st |} key dd od ad aod ->
        mergeable {| config := c2; heap := heap (normalize_config st).2 |}
                  key dd od ad aod).
Proof.
  destruct (normalize_config_frame st) as [Hsub _].
  assert (Hkeep : forall l d, heap st !! l = Some d ->
                              heap (normalize_config st).2 !! l = Some d).
  { intros l d Hl. by eapply lookup_weaken. }
  split; [exact Hkeep |]. split; [| split].
  - intros pid ld dd _ Hld. split; [by apply Hkeep |].
    intros lo od _ Hlo. by apply Hkeep.
  - intros key pcs dd od ad aod Hb Hm.
    destruct (scan_key_builtin_run key pcs st _ _ _ _ Hb Hm)
      as (ln & lno & st1 & Hstep & Hln & Hlno & Hsub1 & _ & Hcfg1 & Hoauth1).
    exists ln, lno, st1. repeat split; try done.
    intros l d Hl. by eapply lookup_weaken.
  - intros c2 key dd od ad aod. by apply mergeable_mono.
Qed.

End NormalizationFacts.

(** The scenario of the specification, run. *)
Example normalize_config_scenario :
  Social.normalize_config Sample.scenario
  = (Return [VRef 5%positive; VRef 7%positive],
     {| config :=
          <["SOCIAL_TWITTER" := VRef 7%positive]>
            (config Sample.scenario ∪ Social.default_config);
        heap :=
          <[7%positive :=
              <["consumer_key" := VStr "X"]> {["oauth" := VRef 8%positive]}]>
            (<[8%positive :=
                 <["request_token_url" := VStr "custom"]>
                   {["access_token_url" := VStr "default_access"]}]>
               (heap Sample.scenario)) |}).
Proof. vm_compute. reflexivity. Qed.

Lemma normalize_config_merges_over_defaults_witness :
  exists pcs st' ln lno cfg,
    Social.normalize_config Sample.scenario = (Return pcs, st')
    /\ config st' !! "SOCIAL_TWITTER" = Some (VRef ln)
    /\ heap st' !! ln = Some cfg
    /\ cfg !! "oauth" = Some (VRef lno)
    /\ cfg !! "consumer_key" = Some (VStr "X")
    /\ heap st' !! lno
       = Some (<["request_token_url" := VStr "custom"]>
                 {["access_token_url" := VStr "default_access"]}).
Proof.
  assert (Htw : Social.mergeable Sample.scenario "SOCIAL_TWITTER"
                  Sample.twitter_defaults Sample.twitter_default_oauth
                  Sample.app_twitter Sample.app_twitter_oauth).
  { exists 1%positive, 2%positive, 3%positive, 4%positive.
    repeat split; reflexivity. }
  assert (Hb : Social.builtin_key "SOCIAL_TWITTER").
  { split; [split; reflexivity |]. apply list_elem_of_singleton. reflexivity. }
  assert (Hall : forall k, is_Some (config Sample.scenario !! k) ->
                   Social.builtin_key k ->
                   exists dd' od' ad' aod',
                     Social.mergeable Sample.scenario k dd' od' ad' aod').
  { intros k Hk Hbk. apply elem_of_dom in Hk.
    unfold Sample.scenario in Hk. cbn [config] in Hk.
    rewrite !dom_insert_L, dom_singleton_L in Hk.
    apply elem_of_union in Hk as [Hk | Hk];
      [| apply elem_of_union in Hk as [Hk | Hk]];
      apply elem_of_singleton in Hk; subst k.
    - eexists _, _, _, _. exact Htw.
    - destruct Hbk as [_ Hbk]. apply list_elem_of_singleton in Hbk.
      vm_compute in Hbk. discriminate Hbk.
    - destruct Hbk as [[Hs _] _]. vm_compute in Hs. discriminate Hs. }
  destruct (normalize_config_merges_over_defaults Sample.scenario
              "SOCIAL_TWITTER" Sample.twitter_defaults
              Sample.twitter_default_oauth Sample.app_twitter
              Sample.app_twitter_oauth Hb Htw Hall)
    as (pcs & st' & ln & lno & cfg & ocfg & Hrun & Hcfg & _ & Hln & Hoauth
        & Hlno & Htop & Hocfg & _).
  exists pcs, st', ln, lno, cfg.
  split; [exact Hrun |]. split; [exact Hcfg |]. split; [exact Hln |].
  split; [exact Hoauth |]. split.
  - rewrite Htop; [reflexivity | discriminate].
  - rewrite Hlno, Hocfg. reflexivity.
Defined.

Lemma custom_provider_config_passes_through_witness :
  config (Social.normalize_config Sample.scenario).2 !! "SOCIAL_GITHUB"
    = Some (VRef 5%positive)
  /\ heap (Social.normalize_config Sample.scenario).2 !! 5%positive
     = Some Sample.app_github
  /\ Social.scan_key "SOCIAL_GITHUB" [] Sample.scenario
     = (Return [VRef 5%positive], Sample.scenario)
  /\ forall pcs',
       (Social.normalize_config Sample.scenario).1 = Return pcs' ->
       VRef 5%positive ∈ pcs'.
Proof.
  destruct (custom_provider_config_passes_through Sample.scenario
              "SOCIAL_GITHUB" (VRef 5%positive))
    as (Hkept & Hheap & Hpass).
  - reflexivity.
  - apply (bool_decide_unpack _). by vm_compute.
  - reflexivity.
  - destruct (Hpass eq_refl) as [Hstep Hin].
    split; [exact Hkept |]. split; [apply Hheap; reflexivity |].
    split; [exact (Hstep []) | exact Hin].
Defined.

(** Without an 'oauth' item in the application's configuration the
    normalization raises; the defaults are as they were. *)
Example normalize_config_without_oauth :
  (Social.normalize_config Sample.scenario_without_oauth).1
    = Raise (KeyError "oauth")
  /\ heap (Social.normalize_config Sample.scenario_without_oauth).2
       !! 1%positive = Some Sample.twitter_defaults
  /\ heap (Social.normalize_config Sample.scenario_without_oauth).2
       !! 2%positive = Some Sample.twitter_default_oauth.
Proof. repeat split; vm_compute; reflexivity. Qed.

(** The handlers of the base classes, which do not override the extraction
    methods. *)
Example login_base_not_implemented :
  LoginHandler.__call__
    (LoginHandler.base "twitter" (Some Sample.reporting_callback))
    (VRef 1%positive) []
  = (Raise (NotImplementedError "get_provider_user_id"),
     [LoggerDebug "Received login response from Twitter: {'uid': '123'}";
      Invoke "get_provider_user_id" [VRef 1%positive]]).
Proof. reflexivity. Qed.

Example connect_denied :
  ConnectHandler.__call__ Sample.twitter_connect VNone (VInt 1) []
  = (Return (VStr "302 FOUND /profile"),
     [LoggerDebug "Received connect response from Twitter. None";
      DoFlash "Access was denied by Twitter" "error"]).
Proof. reflexivity. Qed.

Example py_str_int : py_str (fun _ => "") (VInt (-42)) = "-42".
Proof. reflexivity. Qed.

(* ===================================================================== *)
(** * Part III: further properties *)
(* ===================================================================== *)

Section MoreSeedFacts.
Import Social.

Lemma seed_fold_union (l : list (string * pyval)) (c : dict) :
  foldl (fun acc kv => setdefault kv.1 kv.2 acc) c l
  = c ∪ (list_to_map l : dict).
Proof.
  revert c. induction l as [| [k v] l IH]; intros c; simpl.
  - by rewrite (right_id_L ∅ (∪)).
  - rewrite IH. apply map_eq. intros i. rewrite !union_lookup.
    unfold setdefault.
    destruct (c !! k) as [w |] eqn:Hk.
    + destruct (c !! i) as [x |] eqn:Hi; [done |].
      rewrite lookup_insert_ne; [done |]. intros <-. congruence.
    + destruct (decide (k = i)) as [<- | Hne].
      * by rewrite Hk, !lookup_insert_eq.
      * by rewrite !lookup_insert_ne.
Qed.

Lemma seed_defaults_union_run (st : app_state) :
  seed_defaults st
  = (Return tt, {| config := config st ∪ default_config; heap := heap st |}).
Proof.
  unfold seed_defaults, modify, set_config. rewrite seed_fold_union.
  by rewrite list_to_map_to_list.
Qed.

(** X1: seeding the global options gives [app.config] with the documented
    defaults under it: a key the application set keeps its value, a global
    option it did not set gets the default, and no dictionary object is
    touched. *)
Theorem seed_defaults_is_union (st : app_state) :
  seed_defaults st
  = (Return tt, {| config := config st ∪ default_config; heap := heap st |})
  /\ forall k,
       (config st ∪ default_config) !! k
       = match config st !! k with
         | Some v => Some v
         | None => default_config !! k
         end.
Proof.
  split; [apply seed_defaults_union_run | intros k; apply union_lookup].
Qed.
End MoreSeedFacts.

Section KeysFacts.
Context `{ConfigUtils}.
Import Social.
Variable h0 : gmap loc dict.
Variable P : dict -> Prop.
Variable written : string -> Prop.
Hypothesis P_insert : forall c k v, written k -> P c -> P (<[k := v]> c).

Lemma triple_scan_key_written (key : string) (pcs : list pyval) :
  written key -> triple h0 P (scan_key key pcs) (fun _ => True).
Proof.
  intros Hw. unfold scan_key.
  destruct (_ && _); [| by apply triple_ret].
  destruct (negb _).
  - eapply triple_bind; [apply triple_config_get |]. intros v _.
    by apply triple_ret.
  - eapply triple_bind.
    + by eapply triple_merge_with_defaults.
    + intros d_config _. by apply triple_ret.
Qed.

Lemma triple_scan_keys_written (keys : list string) (pcs : list pyval) :
  Forall written keys -> triple h0 P (scan_keys keys pcs) (fun _ => True).
Proof.
  intros Hw. revert pcs.
  induction Hw as [| key rest Hkey _ IH]; intros pcs; simpl.
  - by apply triple_ret.
  - eapply triple_bind; [by apply triple_scan_key_written |].
    intros pcs' _. apply IH.
Qed.
End KeysFacts.

Section MoreNormalizationFacts.
Context `{ConfigUtils}.
Import Social.

(** X2: whatever its outcome, the normalization leaves [app.config] with
    exactly the keys it had and the global default keys: no key is removed,
    none is added for a provider. *)
Theorem normalize_config_keys (st : app_state) :
  dom (config (normalize_config st).2)
  = dom (config st) ∪ dom default_config.
Proof.
  pose proof (seed_defaults_union_run st) as Hseed.
  rewrite (normalize_config_unfold _ _ Hseed). clear Hseed.
  set (c := config st ∪ default_config).
  set (st0 := {| config := c; heap := heap st |}).
  destruct (triple_scan_keys_written (heap st) (fun c' => dom c' = dom c)
              (fun k => k ∈ dom c)) with
    (keys := (map_to_list c).*1) (pcs := @nil pyval) (st := st0)
    as [[_ Hdom] _].
  - intros c' k v Hk Hc'. rewrite dom_insert_L, Hc'.
    apply subseteq_union_1_L. by apply singleton_subseteq_l.
  - apply Forall_forall. intros k Hk.
    apply list_elem_of_fmap in Hk as [[k' v] [-> Hk]].
    apply elem_of_map_to_list in Hk. by apply elem_of_dom_2 in Hk.
  - by split.
  - rewrite Hdom. unfold c. by rewrite dom_union_L.
Qed.
End MoreNormalizationFacts.

Section FailureFacts.
Context `{ConfigUtils}.
Import Social.

Lemma keeps_config_lift {A} (o : outcome A) : keeps_config (lift o).
Proof. by intros st. Qed.

Lemma keeps_config_dict_copy (v : pyval) : keeps_config (dict_copy v).
Proof.
  intros st. unfold dict_copy.
  destruct v as [| | | | l]; try done. by destruct (heap st !! l).
Qed.

Lemma keeps_config_getitem (v : pyval) (k : string) :
  keeps_config (getitem v k).
Proof.
  intros st. unfold getitem.
  destruct v as [| | | | l]; try done.
  destruct (heap st !! l) as [d |]; [| done]. by destruct (d !! k).
Qed.

Lemma keeps_config_setitem (target : pyval) (k : string) (v : pyval) :
  keeps_config (setitem target k v).
Proof.
  intros st. unfold setitem.
  destruct target as [| | | | l]; try done. by destruct (heap st !! l).
Qed.

Lemma keeps_config_dict_update (target src : pyval) :
  keeps_config (dict_update target src).
Proof.
  intros st. unfold dict_update.
  destruct target as [| | | | l]; try done.
  destruct (heap st !! l) as [d |]; [| done].
  destruct src as [| | | s | ls]; try done.
  - by destruct s.
  - by destruct (heap st !! ls).
Qed.

Lemma keeps_config_config_getitem (key : string) :
  keeps_config (config_getitem key).
Proof.
  intros st. unfold config_getitem. by destruct (config st !! key).
Qed.

Lemma raise_keeps_config_bind {A B} (m : M app_state A)
    (k : A -> M app_state B) :
  keeps_config m -> (forall a, raise_keeps_config (k a)) ->
  raise_keeps_config (bind m k).
Proof.
  intros Hm Hk st e st'. unfold bind.
  specialize (Hm st). destruct (m st) as [[a | e1] st1]; simpl in Hm.
  - intros Hrun. rewrite <- Hm. by eapply Hk.
  - by intros [= _ <-].
Qed.

Lemma merge_with_defaults_raise (key provider_id : string) :
  raise_keeps_config (merge_with_defaults key provider_id).
Proof.
  unfold merge_with_defaults.
  apply raise_keeps_config_bind; [apply keeps_config_lift |]. intros dflt.
  apply raise_keeps_config_bind; [apply keeps_config_dict_copy |].
  intros d_config.
  apply raise_keeps_config_bind; [apply keeps_config_getitem |].
  intros d_oauth.
  apply raise_keeps_config_bind; [apply keeps_config_dict_copy |].
  intros d_oauth_config.
  apply raise_keeps_config_bind; [apply keeps_config_config_getitem |].
  intros app_cfg.
  apply raise_keeps_config_bind; [apply keeps_config_dict_update |].
  intros _.
  apply raise_keeps_config_bind; [apply keeps_config_config_getitem |].
  intros app_cfg'.
  apply raise_keeps_config_bind; [apply keeps_config_getitem |].
  intros app_oauth.
  apply raise_keeps_config_bind; [apply keeps_config_dict_update |].
  intros _.
  apply raise_keeps_config_bind; [apply keeps_config_setitem |].
  intros _ st e st'. discriminate.
Qed.

Lemma scan_key_raise_builtin (key : string) (pcs : list pyval)
    (st st' : app_state) (e : exn) :
  scan_key key pcs st = (Raise e, st') -> builtin_key key.
Proof.
  intros Hrun.
  destruct (decide (provider_key key)) as [Hpk | Hnpk].
  - destruct (decide (provider_id_of_key key ∈ get_default_provider_names))
      as [Hid | Hid]; [done |].
    by rewrite scan_key_custom in Hrun.
  - by rewrite scan_key_other in Hrun.
Qed.

Lemma scan_key_raise_config (key : string) (pcs : list pyval)
    (st st' : app_state) (e : exn) :
  scan_key key pcs st = (Raise e, st') -> config st' = config st.
Proof.
  intros Hrun.
  destruct (scan_key_raise_builtin _ _ _ _ _ Hrun) as [[Hs Hc] Hid].
  unfold scan_key in Hrun.
  rewrite Hs, Hc, bool_decide_eq_true_2 in Hrun by done. simpl in Hrun.
  unfold bind in Hrun.
  destruct (merge_with_defaults key (provider_id_of_key key) st)
    as [[d | e1] st1] eqn:Hmerge; [done |].
  injection Hrun as <- <-. by eapply merge_with_defaults_raise.
Qed.

(** X3: the loop body raises for built-in provider keys only, and when it
    does, [app.config] is exactly as it was before that key (the key keeps
    the application's own value) and every dictionary that existed keeps its
    items. *)
Theorem scan_key_failure_keeps_config (key : string) (pcs : list pyval)
    (st st' : app_state) (e : exn) :
  scan_key key pcs st = (Raise e, st') ->
  builtin_key key
  /\ config st' = config st
  /\ forall l d, heap st !! l = Some d -> heap st' !! l = Some d.
Proof.
  intros Hrun.
  split; [by eapply scan_key_raise_builtin |].
  split; [by eapply scan_key_raise_config |].
  intros l d Hl.
  destruct (triple_scan_key_written (heap st) (fun _ => True)
              (fun _ => True) (fun _ _ _ _ _ => I) key pcs I st)
    as [[Hsub _] _]; [done |].
  rewrite Hrun in Hsub. by eapply lookup_weaken.
Qed.

(** X4: for a built-in provider key whose application configuration is a
    dictionary without an 'oauth' item the loop body raises KeyError for
    'oauth', even though the defaults have one, and [app.config] is left as
    it was. *)
Theorem scan_key_without_app_oauth (key : string) (pcs : list pyval)
    (st : app_state) (ld lo la : loc) (dd od ad : dict) :
  builtin_key key ->
  get_class_from_string (default_config_path (provider_id_of_key key))
    = Return (VRef ld) ->
  heap st !! ld = Some dd ->
  dd !! "oauth" = Some (VRef lo) ->
  heap st !! lo = Some od ->
  config st !! key = Some (VRef la) ->
  heap st !! la = Some ad ->
  ad !! "oauth" = None ->
  (scan_key key pcs st).1 = Raise (KeyError "oauth")
  /\ config (scan_key key pcs st).2 = config st.
Proof.
  intros [[Hs Hc] Hid] Hcls Hld Hlo Hod Hcfg Had Hnone.
  assert (Hrun : (scan_key key pcs st).1 = Raise (KeyError "oauth")).
  { set (ln := fresh (dom (heap st))).
    set (lno := fresh (dom (<[ln := dd]> (heap st)))).
    assert (Hln : heap st !! ln = None)
      by apply not_elem_of_dom, is_fresh.
    assert (Hlno : <[ln := dd]> (heap st) !! lno = None)
      by apply not_elem_of_dom, is_fresh.
    assert (Hne : ln <> lno).
    { intros Heq. rewrite <- Heq, lookup_insert_eq in Hlno. done. }
    assert (Hlno' : heap st !! lno = None).
    { by rewrite lookup_insert_ne in Hlno. }
    assert (Hfresh : forall l d, heap st !! l = Some d -> l <> ln /\ l <> lno).
    { intros l d Hl. split; intros ->; congruence. }
    destruct (Hfresh _ _ Hld) as [? ?]. destruct (Hfresh _ _ Hod) as [? ?].
    destruct (Hfresh _ _ Had) as [? ?].
    unfold scan_key. rewrite Hs, Hc, bool_decide_eq_true_2 by done. simpl.
    unfold merge_with_defaults, bind, lift. rewrite Hcls.
    unfold dict_copy, getitem, dict_update, setitem, config_getitem,
      config_setitem, modify, ret, set_heap, set_config.
    fold ln.
    repeat (cbn [heap config];
            first [ rewrite lookup_insert_eq
                  | rewrite lookup_insert_ne by done
                  | rewrite Hld | rewrite Hlo | rewrite Hod | rewrite Hcfg
                  | rewrite Had | rewrite Hnone ]).
    reflexivity. }
  split; [exact Hrun |].
  destruct (scan_key key pcs st) as [r st'] eqn:Hscan. simpl in Hrun.
  subst r. simpl. by apply (scan_key_raise_config _ _ _ _ _ Hscan).
Qed.


End FailureFacts.

Section RegistryFacts.
Import Social.

(** X6: [register_provider] is an upsert: the name then looks up the
    provider registered, every other name looks up what it did, a second
    registration under a name replaces the first, and the datastore and the
    OAuth registry are not touched. *)
Theorem register_provider_upsert (self : t) (name : string)
    (p1 p2 : Provider.t) :
  __getattr__ (register_provider name p2 self) name = Some p2
  /\ (forall other, other <> name ->
        __getattr__ (register_provider name p2 self) other
        = __getattr__ self other)
  /\ register_provider name p2 (register_provider name p1 self)
     = register_provider name p2 self
  /\ datastore (register_provider name p2 self) = datastore self
  /\ oauth (register_provider name p2 self) = oauth self.
Proof.
  unfold __getattr__, register_provider. simpl. repeat split.
  - by rewrite lookup_insert_eq.
  - intros other Hne. by rewrite lookup_insert_ne.
  - by rewrite insert_insert_eq.
Qed.

Lemma instance_attribute_None (self : t) (name : string) :
  name ∉ ["providers"; "datastore"; "oauth"] ->
  instance_attribute self name = None.
Proof.
  intros Hinst. unfold instance_attribute.
  rewrite !not_elem_of_cons in Hinst. destruct Hinst as (H1 & H2 & H3 & _).
  apply String.eqb_neq in H1, H2, H3. by rewrite H1, H2, H3.
Qed.

Lemma instance_attribute_not_provider (self : t) (name : string)
    (a : attribute) (q : Provider.t) :
  instance_attribute self name = Some a -> a <> AttrProvider q.
Proof.
  unfold instance_attribute, of_pyval.
  repeat (destruct (String.eqb name _); [intros [= <-]; try done |]);
    try done.
  - by destruct (is_None _).
  - by destruct (is_None _).
Qed.

(** X7: [social.<name>] is the provider registered under the name, unless
    the name is one the object has by itself (an instance attribute, a
    method, an attribute of the base class): a provider registered under
    such a name is in the registry but is never what the attribute lookup
    gives. *)
Theorem getattr_registered_provider (inherited : string -> bool) (self : t)
    (name : string) (p : Provider.t) :
  (~ shadowed inherited name ->
     getattr inherited (register_provider name p self) name = AttrProvider p)
  /\ (shadowed inherited name ->
      __getattr__ (register_provider name p self) name = Some p
      /\ forall q,
           getattr inherited (register_provider name p self) name
           <> AttrProvider q).
Proof.
  split.
  - intros Hns. unfold shadowed in Hns.
    assert (Hinst : name ∉ ["providers"; "datastore"; "oauth"]) by tauto.
    assert (Hmeth : name ∉ methods) by tauto.
    assert (Hinh : inherited name = false).
    { destruct (inherited name); [tauto | done]. }
    unfold getattr, class_attribute.
    rewrite instance_attribute_None by done.
    rewrite bool_decide_eq_false_2, Hinh by done. simpl.
    unfold __getattr__, register_provider. simpl.
    by rewrite lookup_insert_eq.
  - intros Hs. split.
    { unfold __getattr__, register_provider. simpl.
      by rewrite lookup_insert_eq. }
    intros q. unfold getattr.
    destruct (instance_attribute _ name) as [a |] eqn:Hi.
    { by eapply instance_attribute_not_provider. }
    unfold class_attribute.
    destruct (bool_decide (name ∈ methods) || inherited name) eqn:Hc;
      [done |].
    apply orb_false_iff in Hc as [Hm Hinh].
    apply bool_decide_eq_false in Hm.
    destruct Hs as [Hs | [Hs | Hs]]; [| done | congruence].
    exfalso. revert Hi. unfold instance_attribute.
    rewrite !elem_of_cons in Hs.
    destruct Hs as [-> | [-> | [-> | Hs]]]; try done.
    by apply elem_of_nil in Hs.
Qed.

End RegistryFacts.

Section RegistrationFacts.
Context `{Views}.
Import Social Registration.

Lemma register_all_providers (pps : list (string * Provider.t)) (self : t) :
  providers (register_all pps self)
  = list_to_map (reverse pps) ∪ providers self
  /\ datastore (register_all pps self) = datastore self
  /\ oauth (register_all pps self) = oauth self.
Proof.
  unfold register_all. revert self.
  induction pps as [| [name p] pps IH]; intros self; simpl.
  - by rewrite (left_id_L ∅ (∪)).
  - destruct (IH (register_provider name p self)) as (Hp & Hd & Ho).
    rewrite Hp, Hd, Ho. repeat split. simpl.
    rewrite reverse_cons, list_to_map_app. simpl.
    rewrite <- (assoc_L (∪)). f_equal.
    by rewrite insert_empty, <- insert_union_singleton_l.
Qed.

Lemma register_configured_run (pcs : list pyval)
    (pps : list (string * Provider.t)) (self : t) (w : world) :
  configure_all pcs = Return pps ->
  register_configured pcs (self, w)
  = (Return tt, (register_all pps self, w ++ registration_log pps)).
Proof.
  revert pps self w. induction pcs as [| pc pcs IH]; intros pps self w; simpl.
  - intros [= <-]. unfold ret. simpl. by rewrite app_nil_r.
  - destruct (configure_provider pc) as [pp | e] eqn:Hpc; [| done].
    destruct (configure_all pcs) as [pps' | e]; [| done].
    intros [= <-]. unfold bind, lift, modify. simpl.
    rewrite (IH pps') by done. simpl. by rewrite <- app_assoc.
Qed.

(** X8: when every configuration can be configured, the registration loop
    returns, logs one debug line per provider in order, registers under each
    id the last provider configured for it, leaves the other names as they
    were, and does not touch the datastore or the OAuth registry. *)
Theorem register_configured_registers_last (pcs : list pyval)
    (pps : list (string * Provider.t)) (self : t) (w : world) :
  configure_all pcs = Return pps ->
  exists self',
    register_configured pcs (self, w)
    = (Return tt, (self', w ++ registration_log pps))
    /\ providers self' = list_to_map (reverse pps) ∪ providers self
    /\ (forall name, name ∉ pps.*1 ->
          __getattr__ self' name = __getattr__ self name)
    /\ (forall before name p after,
          pps = before ++ (name, p) :: after -> name ∉ after.*1 ->
          __getattr__ self' name = Some p)
    /\ datastore self' = datastore self
    /\ oauth self' = oauth self.
Proof.
  intros Hcfg. exists (register_all pps self).
  destruct (register_all_providers pps self) as (Hp & Hd & Ho).
  split; [by apply register_configured_run |].
  split; [done |]. split; [| split; [| done]].
  - intros name Hname. unfold __getattr__. rewrite Hp.
    rewrite lookup_union_r; [done |].
    apply not_elem_of_list_to_map_1. by rewrite fmap_reverse, elem_of_reverse.
  - intros before name p after -> Hname. unfold __getattr__. rewrite Hp.
    apply lookup_union_Some_l.
    rewrite reverse_app, reverse_cons, <- app_assoc, list_to_map_app.
    rewrite lookup_union_r.
    + simpl. by rewrite lookup_insert_eq.
    + apply not_elem_of_list_to_map_1.
      by rewrite fmap_reverse, elem_of_reverse.
Qed.

End RegistrationFacts.

Section RegistrationFailure.
Context `{Views}.
Import Social Registration.

(** X9: a configuration that cannot be configured stops the registration
    loop with the configurator's exception; the providers configured before
    it stay registered and logged, those after it are not reached. *)
Theorem register_configured_stops_at_failure (done rest : list pyval)
    (pc : pyval) (pps : list (string * Provider.t)) (e : exn)
    (self : t) (w : world) :
  configure_all done = Return pps ->
  configure_provider pc = Raise e ->
  register_configured (done ++ pc :: rest) (self, w)
  = (Raise e, (register_all pps self, w ++ registration_log pps)).
Proof.
  revert pps self w. induction done as [| pc0 done IH]; intros pps self w.
  - intros [= <-] Hpc. simpl. unfold bind, lift. rewrite Hpc. simpl.
    by rewrite app_nil_r.
  - simpl.
    destruct (configure_provider pc0) as [pp | e0] eqn:Hpc0; [| done].
    destruct (configure_all done) as [pps' | e0]; [| done].
    intros [= <-] Hpc. unfold bind, lift, modify. simpl.
    rewrite (IH pps') by done. simpl. by rewrite <- app_assoc.
Qed.
End RegistrationFailure.

Section MoreFactoryFacts.
Context {S : Type} `{Collaborators S}.
Import ConnectionFactory.

Lemma bind_assoc_run {A B C} (m : M S A) (k : A -> M S B) (k' : B -> M S C)
    (s : S) :
  bind (bind m k) k' s = bind m (fun a => bind (k a) k') s.
Proof. unfold bind. by destruct (m s) as [[a | e] s1]. Qed.

(** X10: the three conditions of [get_connection] amount to a table: no
    argument resolves the primary connection of the current user, a user id
    alone the primary connection of that user, both arguments the specific
    connection; each case is one lookup followed by the construction of the
    result. *)
Theorem get_connection_resolution (self : t S) (user_id provider_user_id : pyval)
    (s : S) :
  (is_None user_id = true -> is_None provider_user_id = true ->
     get_connection self user_id provider_user_id s
     = (uid <- current_user_get_id ;;
        c <- datastore_get_primary_connection uid (provider_id self) ;;
        Calls.build self c) s)
  /\ (is_None user_id = false -> is_None provider_user_id = true ->
     get_connection self user_id provider_user_id s
     = (c <- datastore_get_primary_connection user_id (provider_id self) ;;
        Calls.build self c) s)
  /\ (is_None user_id = false -> is_None provider_user_id = false ->
     get_connection self user_id provider_user_id s
     = (c <- datastore_get_connection user_id (provider_id self)
               provider_user_id ;;
        Calls.build self c) s).
Proof.
  unfold get_connection, resolve, Calls.build,
    _get_current_user_primary_connection,
    _get_primary_connection, _get_specific_connection.
  repeat split; intros Hu Hp; rewrite Hu, Hp; simpl; unfold bind, ret.
  - destruct (current_user_get_id s) as [[uid | e] s1]; [| done].
    by destruct (datastore_get_primary_connection uid _ s1) as [[c | e] s2].
  - by destruct (datastore_get_primary_connection user_id _ s)
      as [[c | e] s2].
  - by destruct (datastore_get_connection user_id _ provider_user_id s)
      as [[c | e] s2].
Qed.

(** X11: [get_connection] with the user id alone, as a keyword or by
    position, and with provider_user_id given as None besides, are the same
    computation, and so are the two calls of the factory itself. *)
Theorem primary_connection_spellings (self : t S) (u : pyval) (s : S) :
  get_connection_kw self {["user_id" := u]} s = get_connection self u VNone s
  /\ get_connection_kw self
       (<["provider_user_id" := VNone]> {["user_id" := u]}) s
     = get_connection self u VNone s
  /\ Calls.get_connection self [u] ∅ s = get_connection self u VNone s
  /\ Calls.get_connection self [u; VNone] ∅ s = get_connection self u VNone s
  /\ Calls.get_connection self [] {["user_id" := u]} s
     = get_connection self u VNone s
  /\ __call__ self {["user_id" := u]} s
     = __call__ self (<["provider_user_id" := VNone]> {["user_id" := u]}) s.
Proof.
  assert (H1 : get_connection_kw self {["user_id" := u]} s
               = get_connection self u VNone s).
  { unfold get_connection_kw.
    rewrite decide_True; [by rewrite lookup_singleton_eq |].
    rewrite delete_singleton_ne by done. apply delete_singleton_eq. }
  assert (H2 : get_connection_kw self
                 (<["provider_user_id" := VNone]> {["user_id" := u]}) s
               = get_connection self u VNone s).
  { unfold get_connection_kw.
    rewrite decide_True.
    - rewrite lookup_insert_ne, lookup_singleton_eq by done.
      by rewrite lookup_insert_eq.
    - rewrite delete_insert_eq, delete_singleton_ne by done.
      apply delete_singleton_eq. }
  assert (H3 : Calls.get_connection self [] {["user_id" := u]} s
               = get_connection self u VNone s).
  { unfold Calls.get_connection. rewrite decide_False by (simpl; lia).
    rewrite decide_True; [by rewrite lookup_singleton_eq |].
    rewrite delete_singleton_ne by done. apply delete_singleton_eq. }
  assert (H4 : __call__ self {["user_id" := u]} s
               = __call__ self
                   (<["provider_user_id" := VNone]> {["user_id" := u]}) s).
  { unfold __call__, try_except_not_found, bind. by rewrite H1, H2. }
  repeat split; try done.
Qed.

(** X12: a keyword other than user_id and provider_user_id is a TypeError,
    raised before any collaborator is called (the state is unchanged), and
    the callable form does not swallow it. *)
Theorem unexpected_keyword_is_type_error (self : t S) (kwargs : dict)
    (k : string) (s : S) :
  is_Some (kwargs !! k) -> k <> "user_id" -> k <> "provider_user_id" ->
  get_connection_kw self kwargs s
  = (Raise (TypeError "get_connection() got an unexpected keyword argument"),
     s)
  /\ __call__ self kwargs s
     = (Raise (TypeError
                 "get_connection() got an unexpected keyword argument"), s).
Proof.
  intros [v Hk] Hu Hp.
  assert (Hkw : get_connection_kw self kwargs s
                = (Raise (TypeError
                     "get_connection() got an unexpected keyword argument"),
                   s)).
  { unfold get_connection_kw. rewrite decide_False; [done |].
    intros Hempty. apply (f_equal (fun m => m !! k)) in Hempty.
    rewrite !lookup_delete_ne, lookup_empty in Hempty by done. congruence. }
  split; [done |].
  unfold __call__, try_except_not_found, bind. by rewrite Hkw.
Qed.

(** X13: when the lookup of the connection raises, [get_connection]
    raises the same exception in the state the lookup left, whatever the
    factory's [_create_api] is: it is not called. *)
Theorem failed_lookup_skips_create_api (self self' : t S)
    (user_id provider_user_id : pyval) (s s' : S) (e : exn) :
  provider_id self' = provider_id self ->
  resolve self user_id provider_user_id s = (Raise e, s') ->
  get_connection self user_id provider_user_id s = (Raise e, s')
  /\ get_connection self' user_id provider_user_id s = (Raise e, s').
Proof.
  intros Hpid Hres.
  assert (Hres' : resolve self' user_id provider_user_id s = (Raise e, s')).
  { rewrite <- Hres. unfold resolve, _get_current_user_primary_connection,
      _get_primary_connection, _get_specific_connection. by rewrite Hpid. }
  unfold get_connection, bind at 1 5. by rewrite Hres, Hres'.
Qed.

(** X14: [Provider.get_connection] passes its arguments to the factory
    itself, which takes keywords only: with keywords it is the callable form
    (so it never raises ConnectionNotFoundError), with any positional
    argument it raises TypeError before any lookup, although the factory's
    own [get_connection] takes the user id by position. *)
Theorem provider_get_connection_keywords_only
    (connection_factory : t S) (kwargs : dict) (u : pyval) (s : S) :
  Calls.provider_get_connection connection_factory [] kwargs s
    = __call__ connection_factory kwargs s
  /\ (forall s',
        Calls.provider_get_connection connection_factory [] kwargs s
        <> (Raise ConnectionNotFoundError, s'))
  /\ (forall args, args <> [] ->
        Calls.provider_get_connection connection_factory args kwargs s
        = (Raise (TypeError "__call__() takes exactly 1 argument"), s))
  /\ Calls.get_connection connection_factory [u] ∅ s
     = get_connection connection_factory u VNone s.
Proof.
  unfold Calls.provider_get_connection, Calls.call.
  split; [done |]. split; [| split].
  - intros s'. unfold __call__, try_except_not_found, bind, ret.
    destruct (get_connection_kw connection_factory kwargs s)
      as [[rv | e] s1]; [done |].
    by destruct e.
  - intros args Hargs. by destruct args.
  - reflexivity.
Qed.
End MoreFactoryFacts.

Section MoreHandlerFacts.
Context `{Flask}.

(** X15: called with a response other than None, a LoginHandler calls
    [get_provider_user_id] on the response, calls the callback with the
    provider id, the user id it returned and the response, and ends as the
    callback ends. *)
Theorem login_hands_identity_to_callback (self : LoginHandler.t)
    (response uid : pyval) (w w1 : world) (name : string)
    (cb : list pyval -> M world pyval) :
  is_None response = false ->
  get_display_name (LoginHandler.provider_id self) = Return name ->
  LoginHandler.callback self = Some cb ->
  LoginHandler.get_provider_user_id self response
    (w ++ [LoggerDebug ("Received login response from " +:+ name +:+ ": "
                        +:+ py_str str_obj response);
           Invoke "get_provider_user_id" [response]])
    = (Return uid, w1) ->
  LoginHandler.__call__ self response w
  = cb [VStr (LoginHandler.provider_id self); uid; response]
       (w1 ++ [Invoke "callback"
                 [VStr (LoginHandler.provider_id self); uid; response]]).
Proof.
  intros Hresp Hname Hcb Huid.
  unfold LoginHandler.__call__, bind, lift, logger_debug, ret.
  rewrite Hname, Hresp, !emit_run. rewrite <- app_assoc. simpl.
  rewrite Huid. unfold call_callback. rewrite Hcb.
  unfold bind. by rewrite emit_run.
Qed.

(** X16: called with a response other than None, a ConnectHandler hands
    the user id it was called with to the callback unchanged, whatever it is,
    together with the connection values. *)
Theorem connect_hands_user_id_to_callback (self : ConnectHandler.t)
    (response user_id cv : pyval) (w w1 : world) (name : string)
    (cb : list pyval -> M world pyval) :
  is_None response = false ->
  get_display_name (ConnectHandler.provider_id self) = Return name ->
  ConnectHandler.callback self = Some cb ->
  ConnectHandler.get_connection_values self response
    (w ++ [LoggerDebug ("Received connect response from " +:+ name +:+ ". "
                        +:+ py_str str_obj response);
           Invoke "get_connection_values" [response]])
    = (Return cv, w1) ->
  ConnectHandler.__call__ self response user_id w
  = cb [cv; user_id] (w1 ++ [Invoke "callback" [cv; user_id]]).
Proof.
  intros Hresp Hname Hcb Hcv.
  unfold ConnectHandler.__call__, bind, lift, logger_debug, ret.
  rewrite Hname, Hresp, !emit_run. rewrite <- app_assoc. simpl.
  rewrite Hcv. unfold call_callback. rewrite Hcb.
  unfold bind. by rewrite emit_run.
Qed.

(** X17: called with response None, a ConnectHandler flashes "Access was
    denied by <display name>" with category 'error' and returns the redirect
    to the configured CONNECT_DENY_REDIRECT target, whatever the user id; it
    calls neither [get_connection_values] nor the callback. *)
Theorem connect_denied_flashes_and_redirects (self : ConnectHandler.t)
    (user_id : pyval) (w : world) (name : string) (target : pyval) :
  get_display_name (ConnectHandler.provider_id self) = Return name ->
  config_value "CONNECT_DENY_REDIRECT" = Return target ->
  exists emitted,
    ConnectHandler.__call__ self VNone user_id w
      = (Return (redirect target), w ++ emitted)
    /\ emitted =
         [LoggerDebug
            ("Received connect response from " +:+ name +:+ ". None");
          DoFlash ("Access was denied by " +:+ name) "error"]
    /\ forall callee args, Invoke callee args ∉ emitted.
Proof.
  intros Hname Htarget. eexists. split; [| split; [reflexivity |]].
  - unfold ConnectHandler.__call__, bind, lift, logger_debug, do_flash, ret.
    rewrite Hname. simpl. rewrite Htarget.
    by rewrite <- app_assoc.
  - intros callee args Hin.
    apply elem_of_cons in Hin as [Hin | Hin]; [discriminate |].
    apply elem_of_cons in Hin as [Hin | Hin]; [discriminate |].
    by apply elem_of_nil in Hin.
Qed.

(** X18: the handlers of the base classes raise NotImplementedError for
    every response other than None, after the debug line, and do not call the
    callback. *)
Theorem base_handlers_not_implemented (provider_id name : string)
    (callback : option (list pyval -> M world pyval))
    (response user_id : pyval) (w : world) :
  is_None response = false ->
  get_display_name provider_id = Return name ->
  LoginHandler.__call__ (LoginHandler.base provider_id callback) response w
  = (Raise (NotImplementedError "get_provider_user_id"),
     w ++ [LoggerDebug ("Received login response from " +:+ name +:+ ": "
                        +:+ py_str str_obj response);
           Invoke "get_provider_user_id" [response]])
  /\ ConnectHandler.__call__ (ConnectHandler.base provider_id callback)
       response user_id w
     = (Raise (NotImplementedError "get_connection_values"),
        w ++ [LoggerDebug ("Received connect response from " +:+ name +:+ ". "
                           +:+ py_str str_obj response);
              Invoke "get_connection_values" [response]]).
Proof.
  intros Hresp Hname.
  unfold LoginHandler.__call__, ConnectHandler.__call__, bind, lift,
    logger_debug, ret.
  cbn [LoginHandler.provider_id LoginHandler.base
       ConnectHandler.provider_id ConnectHandler.base].
  rewrite Hname, Hresp, !emit_run. simpl.
  by rewrite <- !app_assoc.
Qed.

(** X19: a handler that was given no callback runs its extraction method
    and then raises TypeError (None is not callable); what the extraction did
    stays done. *)
Theorem handlers_without_callback (login : LoginHandler.t)
    (connect : ConnectHandler.t) (response user_id uid cv : pyval)
    (w w1 w2 : world) (name name' : string) :
  is_None response = false ->
  get_display_name (LoginHandler.provider_id login) = Return name ->
  get_display_name (ConnectHandler.provider_id connect) = Return name' ->
  LoginHandler.callback login = None ->
  ConnectHandler.callback connect = None ->
  LoginHandler.get_provider_user_id login response
    (w ++ [LoggerDebug ("Received login response from " +:+ name +:+ ": "
                        +:+ py_str str_obj response);
           Invoke "get_provider_user_id" [response]])
    = (Return uid, w1) ->
  ConnectHandler.get_connection_values connect response
    (w ++ [LoggerDebug ("Received connect response from " +:+ name' +:+ ". "
                        +:+ py_str str_obj response);
           Invoke "get_connection_values" [response]])
    = (Return cv, w2) ->
  LoginHandler.__call__ login response w
  = (Raise (TypeError "'NoneType' object is not callable"), w1)
  /\ ConnectHandler.__call__ connect response user_id w
     = (Raise (TypeError "'NoneType' object is not callable"), w2).
Proof.
  intros Hresp Hname Hname' Hcb Hcb' Huid Hcv.
  unfold LoginHandler.__call__, ConnectHandler.__call__, bind, lift,
    logger_debug, ret.
  rewrite Hname, Hname', Hresp, !emit_run. rewrite <- !app_assoc. simpl.
  rewrite Huid, Hcv. unfold call_callback. by rewrite Hcb, Hcb'.
Qed.

End MoreHandlerFacts.

Lemma twitter_is_builtin : Social.builtin_key "SOCIAL_TWITTER".
Proof.
  split; [split; reflexivity |]. apply list_elem_of_singleton. reflexivity.
Qed.

Lemma scan_key_failure_keeps_config_witness :
  exists e st',
    Social.scan_key "SOCIAL_TWITTER" [] Sample.scenario_without_oauth
      = (Raise e, st')
    /\ Social.builtin_key "SOCIAL_TWITTER"
    /\ config st' = config Sample.scenario_without_oauth
    /\ heap st' !! 1%positive = Some Sample.twitter_defaults.
Proof.
  destruct (Social.scan_key "SOCIAL_TWITTER" [] Sample.scenario_without_oauth)
    as [r st'] eqn:Hrun.
  assert (Hr : r = Raise (KeyError "oauth")).
  { apply (f_equal fst) in Hrun. vm_compute in Hrun. congruence. }
  subst r. exists (KeyError "oauth"), st'. split; [reflexivity |].
  destruct (scan_key_failure_keeps_config _ _ _ _ _ Hrun)
    as (Hb & Hcfg & Hheap).
  split; [exact Hb |]. split; [exact Hcfg |]. apply Hheap. reflexivity.
Defined.

Lemma scan_key_without_app_oauth_witness :
  (Social.scan_key "SOCIAL_TWITTER" [] Sample.scenario_without_oauth).1
    = Raise (KeyError "oauth")
  /\ config
       (Social.scan_key "SOCIAL_TWITTER" [] Sample.scenario_without_oauth).2
     = config Sample.scenario_without_oauth.
Proof.
  apply (scan_key_without_app_oauth "SOCIAL_TWITTER" []
           Sample.scenario_without_oauth 1%positive 2%positive 3%positive
           Sample.twitter_defaults Sample.twitter_default_oauth
           {["consumer_key" := VStr "X"]}).
  - exact twitter_is_builtin.
  - reflexivity.
  - reflexivity.
  - reflexivity.
  - reflexivity.
  - reflexivity.
  - reflexivity.
  - reflexivity.
Defined.


Lemma register_configured_registers_last_witness :
  exists self',
    Registration.register_configured
      [VRef 7%positive; VRef 5%positive; VRef 7%positive]
      (MoreSamples.empty_social, [])
    = (Return tt,
       (self',
        [LoggerDebug "Registered social provider: <Provider name=twitter>";
         LoggerDebug "Registered social provider: <Provider name=github>";
         LoggerDebug "Registered social provider: <Provider name=twitter>"]))
    /\ Social.__getattr__ self' "facebook" = None
    /\ is_Some (Social.__getattr__ self' "twitter")
    /\ is_Some (Social.__getattr__ self' "github").
Proof.
  assert (Hcfg : Registration.configure_all
                   [VRef 7%positive; VRef 5%positive; VRef 7%positive]
                 = Return [("twitter", MoreSamples.provider_of 7%positive);
                           ("github", MoreSamples.provider_of 5%positive);
                           ("twitter", MoreSamples.provider_of 7%positive)])
    by reflexivity.
  destruct (register_configured_registers_last _ _
              MoreSamples.empty_social [] Hcfg)
    as (self' & Hrun & _ & Hother & Hlast & _).
  exists self'. split; [exact Hrun |]. split; [| split].
  - rewrite Hother; [reflexivity |].
    apply (bool_decide_unpack _). by vm_compute.
  - eexists. eapply (Hlast [_; _] "twitter" _ []); [reflexivity |].
    apply not_elem_of_nil.
  - eexists. eapply (Hlast [_] "github" _ [_]); [reflexivity |].
    apply (bool_decide_unpack _). by vm_compute.
Defined.

Lemma register_configured_stops_at_failure_witness :
  exists self',
    Registration.register_configured
      [VRef 7%positive; VNone; VRef 5%positive]
      (MoreSamples.empty_social, [])
    = (Raise (TypeError "object is not subscriptable"),
       (self',
        [LoggerDebug "Registered social provider: <Provider name=twitter>"]))
    /\ is_Some (Social.__getattr__ self' "twitter")
    /\ Social.__getattr__ self' "github" = None.
Proof.
  assert (Hdone : Registration.configure_all [VRef 7%positive]
                  = Return [("twitter", MoreSamples.provider_of 7%positive)])
    by reflexivity.
  assert (Hpc : configure_provider VNone
                = Raise (TypeError "object is not subscriptable"))
    by reflexivity.
  pose proof (register_configured_stops_at_failure [VRef 7%positive]
                [VRef 5%positive] VNone _ _ MoreSamples.empty_social []
                Hdone Hpc) as Hrun.
  exists (register_all [("twitter", MoreSamples.provider_of 7%positive)]
            MoreSamples.empty_social).
  split; [exact Hrun |]. split; [by eexists | reflexivity].
Defined.

Lemma unexpected_keyword_is_type_error_witness :
  ConnectionFactory.get_connection_kw Sample.twitter_factory
    {["uid" := VInt 1]} 0
  = (Raise (TypeError "get_connection() got an unexpected keyword argument"),
     0)
  /\ ConnectionFactory.__call__ Sample.twitter_factory {["uid" := VInt 1]} 0
     = (Raise (TypeError
                 "get_connection() got an unexpected keyword argument"), 0).
Proof.
  apply (unexpected_keyword_is_type_error Sample.twitter_factory
           {["uid" := VInt 1]} "uid" 0); [by eexists | done | done].
Defined.

Lemma failed_lookup_skips_create_api_witness :
  ConnectionFactory.get_connection Sample.twitter_factory (VInt 2) VNone 0
    = (Raise ConnectionNotFoundError, 1)
  /\ ConnectionFactory.get_connection (ConnectionFactory.base "twitter")
       (VInt 2) VNone 0
     = (Raise ConnectionNotFoundError, 1).
Proof.
  apply (failed_lookup_skips_create_api Sample.twitter_factory
           (ConnectionFactory.base "twitter") (VInt 2) VNone 0 1
           ConnectionNotFoundError); reflexivity.
Defined.

Lemma login_hands_identity_to_callback_witness :
  LoginHandler.__call__ Sample.twitter_login (VRef 1%positive) []
  = (Return (VInt 3),
     [LoggerDebug "Received login response from Twitter: {'uid': '123'}";
      Invoke "get_provider_user_id" [VRef 1%positive];
      Invoke "callback" [VStr "twitter"; VStr "tw-9"; VRef 1%positive];
      DoFlash "callback ran" "info"]).
Proof.
  rewrite (login_hands_identity_to_callback Sample.twitter_login
             (VRef 1%positive) (VStr "tw-9") []
             [LoggerDebug
                "Received login response from Twitter: {'uid': '123'}";
              Invoke "get_provider_user_id" [VRef 1%positive]]
             "Twitter" Sample.reporting_callback);
    reflexivity.
Defined.

Lemma connect_hands_user_id_to_callback_witness :
  ConnectHandler.__call__ Sample.twitter_connect (VRef 1%positive) (VInt 1) []
  = (Return (VInt 2),
     [LoggerDebug "Received connect response from Twitter. {'uid': '123'}";
      Invoke "get_connection_values" [VRef 1%positive];
      Invoke "callback" [VRef 5%positive; VInt 1];
      DoFlash "callback ran" "info"]).
Proof.
  rewrite (connect_hands_user_id_to_callback Sample.twitter_connect
             (VRef 1%positive) (VInt 1) (VRef 5%positive) []
             [LoggerDebug
                "Received connect response from Twitter. {'uid': '123'}";
              Invoke "get_connection_values" [VRef 1%positive]]
             "Twitter" Sample.reporting_callback);
    reflexivity.
Defined.

Lemma connect_denied_flashes_and_redirects_witness :
  ConnectHandler.__call__ Sample.twitter_connect VNone (VInt 1) []
  = (Return (VStr "302 FOUND /profile"),
     [LoggerDebug "Received connect response from Twitter. None";
      DoFlash "Access was denied by Twitter" "error"]).
Proof.
  assert (Hname : get_display_name
                    (ConnectHandler.provider_id Sample.twitter_connect)
                  = Return "Twitter") by reflexivity.
  assert (Htarget : config_value "CONNECT_DENY_REDIRECT"
                    = Return (VStr "/profile")) by reflexivity.
  destruct (connect_denied_flashes_and_redirects Sample.twitter_connect
              (VInt 1) [] "Twitter" (VStr "/profile") Hname Htarget)
    as (emitted & Hrun & Hemitted & _).
  rewrite Hrun, Hemitted. reflexivity.
Defined.

Lemma base_handlers_not_implemented_witness :
  LoginHandler.__call__
    (LoginHandler.base "twitter" (Some Sample.reporting_callback))
    (VRef 1%positive) []
  = (Raise (NotImplementedError "get_provider_user_id"),
     [LoggerDebug "Received login response from Twitter: {'uid': '123'}";
      Invoke "get_provider_user_id" [VRef 1%positive]])
  /\ ConnectHandler.__call__
       (ConnectHandler.base "twitter" (Some Sample.reporting_callback))
       (VRef 1%positive) VNone []
     = (Raise (NotImplementedError "get_connection_values"),
        [LoggerDebug "Received connect response from Twitter. {'uid': '123'}";
         Invoke "get_connection_values" [VRef 1%positive]]).
Proof.
  assert (Hresp : is_None (VRef 1%positive) = false) by reflexivity.
  assert (Hname : get_display_name "twitter" = Return "Twitter")
    by reflexivity.
  exact (base_handlers_not_implemented "twitter" "Twitter"
           (Some Sample.reporting_callback) (VRef 1%positive) VNone []
           Hresp Hname).
Defined.

Lemma handlers_without_callback_witness :
  LoginHandler.__call__ MoreSamples.login_without_callback
    (VRef 1%positive) []
  = (Raise (TypeError "'NoneType' object is not callable"),
     [LoggerDebug "Received login response from Twitter: {'uid': '123'}";
      Invoke "get_provider_user_id" [VRef 1%positive]])
  /\ ConnectHandler.__call__ MoreSamples.connect_without_callback
       (VRef 1%positive) VNone []
     = (Raise (TypeError "'NoneType' object is not callable"),
        [LoggerDebug "Received connect response from Twitter. {'uid': '123'}";
         Invoke "get_connection_values" [VRef 1%positive]]).
Proof.
  assert (Hresp : is_None (VRef 1%positive) = false) by reflexivity.
  assert (Hname : get_display_name "twitter" = Return "Twitter")
    by reflexivity.
  exact (handlers_without_callback MoreSamples.login_without_callback
           MoreSamples.connect_without_callback (VRef 1%positive) VNone
           (VStr "tw-9") (VRef 5%positive) [] _ _ "Twitter" "Twitter"
           Hresp Hname Hname eq_refl eq_refl eq_refl eq_refl).
Defined.

Lemma provider_id_of_key_single_prefix_witness :
  Social.provider_id_of_key "SOCIAL_My_Provider" = "my_provider".
Proof.
  apply (provider_id_of_key_single_prefix "My_Provider"). reflexivity.
Defined.
